(** * GitLab profiler (app.py): a shallow embedding and its properties

    The program is a Streamlit script: three HTTP helpers built on
    [requests], two rendering functions built on [pandas], [matplotlib]
    and Streamlit widgets, and a top-level script that keeps a chat
    transcript and the selected user in [st.session_state].

    The embedding keeps the dynamic typing of the source: the values that
    come out of [response.json()] are JSON trees, every Python operation
    that can fail on the wrong shape raises in the model too, and the
    effects (session state, widgets drawn, HTTP requests sent) are threaded
    through a state-and-exception monad. *)

From Stdlib Require Import ZArith List String Ascii Bool Lia.
From Stdlib Require QArith.
From stdpp Require Import base tactics option list strings pretty.

Set Warnings "-register-all".

Local Open Scope string_scope.
Local Open Scope list_scope.
Local Open Scope Z_scope.

(** ** Python values produced by [response.json()] *)

(** A parsed JSON document.  A dict is kept as the list of its bindings in
    insertion order; its keys are pairwise different, as in any Python
    dict.  Python's [None] is [JNull]. *)
Inductive json : Type :=
  | JNull
  | JBool (b : bool)
  | JInt (z : Z)
  | JFloat (q : QArith_base.Q)
  | JStr (s : string)
  | JArr (items : list json)
  | JObj (bindings : list (string * json)).

Abbreviation pydict := (list (string * json)).

(** [bool(v)]: the truth value Python gives to [v] in [if v:]. *)
Definition py_truthy (v : json) : bool :=
  match v with
  | JNull => false
  | JBool b => b
  | JInt z => negb (z =? 0)
  | JFloat q => negb (QArith_base.Qnum q =? 0)
  | JStr s => match s with EmptyString => false | String _ _ => true end
  | JArr items => match items with [] => false | _ :: _ => true end
  | JObj bindings => match bindings with [] => false | _ :: _ => true end
  end.

(** [d.get(k)] on a dict, [None] standing for a missing key. *)
Fixpoint dict_get (k : string) (d : pydict) : option json :=
  match d with
  | [] => None
  | (k', v) :: rest => if String.eqb k k' then Some v else dict_get k rest
  end.

(** [k in d]. *)
Definition dict_has (k : string) (d : pydict) : bool :=
  match dict_get k d with Some _ => true | None => false end.

(** [s.split(c)] for a one-character separator: the pieces between the
    occurrences of [c], so the result is never empty.  The separator of the
    source is the ASCII letter T, which no byte of a multi-byte UTF-8
    character equals, so splitting bytes splits code points. *)
Fixpoint py_split (c : ascii) (s : string) : list string :=
  match s with
  | EmptyString => [EmptyString]
  | String a rest =>
      if Ascii.eqb a c then EmptyString :: py_split c rest
      else match py_split c rest with
           | [] => [String a EmptyString]
           | piece :: pieces => String a piece :: pieces
           end
  end.

(** [c in s] for a character [c]. *)
Fixpoint str_contains (c : ascii) (s : string) : bool :=
  match s with
  | EmptyString => false
  | String a rest => Ascii.eqb a c || str_contains c rest
  end.

(** ** Exceptions *)

(** The subclasses of [requests.exceptions.RequestException] the helpers
    can meet: transport failures raised by [requests.get], [HTTPError]
    raised by [raise_for_status], and [JSONDecodeError] raised by
    [response.json()] (a [RequestException] since requests 2.27). *)
Inductive request_error : Type :=
  | ConnectionError
  | Timeout
  | TooManyRedirects
  | MissingSchema
  | HTTPError (status : Z)
  | JSONDecodeError.

Inductive exn : Type :=
  | RequestException (e : request_error)
  | KeyError (key : json)
  | TypeError
  | AttributeError
  | IndexError
  | ValueError
  | RerunException.

(** ** HTTP *)

Record response : Type := mkResponse {
  status_code : Z;
  body : option json        (* [None]: the body is not valid JSON *)
}.

(** What one call of [requests.get] does. *)
Inductive get_result : Type :=
  | GetRaised (e : request_error)
  | GetResponse (r : response).

(** The statuses [raise_for_status] rejects, that is those for which
    [response.ok] is false: 4xx client errors and 5xx server errors. *)
Definition is_http_error (status : Z) : bool :=
  (400 <=? status) && (status <? 600).

(** ** Data frames *)

(** A cell of a frame; [None] is the NaN pandas puts where a record has no
    value for a column. *)
Abbreviation cell := (option json).

(** A frame, column by column, every column as long as the index. *)
Record DataFrame : Type := mkFrame {
  df_index : list cell;
  df_columns : list (string * list cell)
}.

Fixpoint column_get (name : string) (cols : list (string * list cell))
  : option (list cell) :=
  match cols with
  | [] => None
  | (n, series) :: rest =>
      if String.eqb name n then Some series else column_get name rest
  end.

Definition has_column (name : string) (df : DataFrame) : bool :=
  match column_get name (df_columns df) with Some _ => true | None => false end.

(** The column labels of [pd.DataFrame(records)]: the keys of the records
    in order of first appearance. *)
Fixpoint union_keys (seen : list string) (records : list pydict) : list string :=
  match records with
  | [] => seen
  | r :: rest =>
      union_keys
        (fold_left
           (fun acc kv => if existsb (String.eqb (fst kv)) acc then acc
                          else acc ++ [fst kv])
           r seen)
        rest
  end.

(** [pd.DataFrame(records)] for a list of dicts: a default integer index,
    one column per key, NaN where a record lacks the key. *)
Definition frame_of_records (records : list pydict) : DataFrame :=
  {| df_index := map (fun i => Some (JInt (Z.of_nat i))) (seq 0 (length records));
     df_columns :=
       map (fun k => (k, map (dict_get k) records)) (union_keys [] records) |}.

(** [df[col] = series]: replaces the column in place when it exists,
    appends it otherwise. *)
Fixpoint set_column (name : string) (series : list cell)
    (cols : list (string * list cell)) : list (string * list cell) :=
  match cols with
  | [] => [(name, series)]
  | (n, old) :: rest =>
      if String.eqb name n then (n, series) :: rest
      else (n, old) :: set_column name series rest
  end.

Fixpoint drop_column (name : string) (cols : list (string * list cell))
  : list (string * list cell) :=
  match cols with
  | [] => []
  | (n, series) :: rest =>
      if String.eqb name n then rest else (n, series) :: drop_column name rest
  end.

(** ** Widgets and figures *)

(** A matplotlib figure as the source fills it: the wedge sizes and labels
    given to [ax.pie] and the title given to [ax.set_title]. *)
Record figure : Type := mkFigure {
  fig_sizes : list json;
  fig_labels : list string;
  fig_title : json
}.

Inductive role : Type := user | assistant.

Record message : Type := mkMessage {
  msg_role : role;
  msg_content : string
}.

(** Everything the script does to the outside, in the order it does it.
    A call into Streamlit or matplotlib is logged with its arguments and
    returns normally: the model does not follow these libraries into the
    arguments they refuse (an image they cannot load, sizes they cannot
    plot).  A request is logged with what the network did. *)
Inductive event : Type :=
  | EvGet (url authorization : string) (result : get_result)
  | EvTitle (text : string)
  | EvError (prefix : string) (e : request_error)
  | EvSubheader (text : string)
  | EvColumns (weights : list Z)
  | EvEnterColumn (i : nat)
  | EvImage (src : json) (width : Z)
  | EvMarkdown (text : string)
  | EvExpander (label : string)
  | EvJson (v : json)
  | EvWarning (text : string)
  | EvInfo (text : string)
  | EvBarChart (data : DataFrame)
  | EvSpinner (text : string)
  | EvPyplot (fig : figure)
  | EvCloseFigure (fig : figure)
  | EvWrite (text : string)
  | EvCaption (text : string)
  | EvChatMessage (r : role)
  | EvButton (label : string).

(** ** The session and the monad of the script *)

(** [st.session_state] (a key that was never set is [None]) together with
    the log of events. *)
Record world : Type := mkWorld {
  ss_messages : option (list message);
  ss_user_data : option json;
  log : list event
}.

Inductive result (A : Type) : Type :=
  | Ok (a : A)
  | Raised (e : exn).
Arguments Ok {A} a.
Arguments Raised {A} e.

(** A statement: it runs in a world and ends normally or by raising; the
    changes made before the exception stay. *)
Definition M (A : Type) : Type := world -> result A * world.

Definition ret {A} (a : A) : M A := fun w => (Ok a, w).

Definition bind {A B} (m : M A) (k : A -> M B) : M B :=
  fun w => match m w with
           | (Ok a, w') => k a w'
           | (Raised e, w') => (Raised e, w')
           end.

Definition raise {A} (e : exn) : M A := fun w => (Raised e, w).

Notation "'let*' x ':=' m 'in' k" := (bind m (fun x => k))
  (at level 10, x name, m at level 100, k at level 200).
Notation "m ';;' k" := (bind m (fun _ => k))
  (at level 100, k at level 200, right associativity).

(** [try: body / except requests.exceptions.RequestException as e: handler]. *)
Definition try_except_request {A} (body : M A) (handler : request_error -> M A)
  : M A :=
  fun w => match body w with
           | (Raised (RequestException e), w') => handler e w'
           | r => r
           end.

(** The world after more events. *)
Definition add_events (w : world) (evs : list event) : world :=
  {| ss_messages := ss_messages w;
     ss_user_data := ss_user_data w;
     log := log w ++ evs |}.

Definition emit (ev : event) : M unit :=
  fun w => (Ok tt, add_events w [ev]).

Definition from_option {A} (e : exn) (o : option A) : M A :=
  match o with Some a => ret a | None => raise e end.

(** ** Python operations on parsed values *)

(** The first code point of a UTF-8 string, as many bytes as its leading
    byte announces. *)
Definition first_char (s : string) : option string :=
  match s with
  | EmptyString => None
  | String a _ =>
      let n := Z.of_N (N_of_ascii a) in
      let len := if n <? 192 then 1%nat
                 else if n <? 224 then 2%nat
                 else if n <? 240 then 3%nat else 4%nat in
      Some (String.substring 0 len s)
  end.

(** [v[0]]. *)
Definition py_index0 (v : json) : M json :=
  match v with
  | JArr items => from_option IndexError (head items)
  | JStr s => from_option IndexError (JStr <$> first_char s)
  | JObj _ => raise (KeyError (JInt 0))
  | _ => raise TypeError
  end.

(** [v[k]] for a string key [k]. *)
Definition py_getitem (v : json) (k : string) : M json :=
  match v with
  | JObj d => from_option (KeyError (JStr k)) (dict_get k d)
  | _ => raise TypeError
  end.

(** [v.get(k, default)]; only dicts have the method. *)
Definition py_get (v : json) (k : string) (default : json) : M json :=
  match v with
  | JObj d => ret (match dict_get k d with Some x => x | None => default end)
  | _ => raise AttributeError
  end.

(** [v.split(c)]; only strings have the method. *)
Definition py_str_split (v : json) (c : ascii) : M (list string) :=
  match v with
  | JStr s => ret (py_split c s)
  | _ => raise AttributeError
  end.

(** [list(v.items())]; only dicts have the method. *)
Definition py_items (v : json) : M (list (string * json)) :=
  match v with
  | JObj d => ret d
  | _ => raise AttributeError
  end.

(** [str(v)] of an optional environment variable. *)
Definition format_env (o : option string) : string :=
  match o with Some s => s | None => "None" end.

(** ** Sample data *)

Definition sample_url : option string := Some "https://gitlab.example.com".
Definition sample_token : option string := Some "tok".
Definition sample_repr : json -> string := fun _ => "<repr>".

Definition alice : pydict :=
  [("id", JInt 42); ("name", JStr "Alice A"); ("username", JStr "alice");
   ("state", JStr "active"); ("created_at", JStr "2020-01-01T00:00:00Z")].

Definition carol : pydict :=
  [("id", JInt 43); ("name", JStr "Carol C"); ("username", JStr "carol")].

(** A project with the counters of the listing and, optionally, the
    statistics the server adds for members. *)
Definition sample_project (n : Z) (statistics : option json) : pydict :=
  [("id", JInt n); ("name", JStr ("p" +:+ pretty n));
   ("star_count", JInt n); ("forks_count", JInt 0)]
  ++ match statistics with Some v => [("statistics", v)] | None => [] end.

Definition fifteen_projects : list pydict :=
  map (fun i => sample_project (Z.of_nat i) None) (seq 1 15).

Definition mixed_projects : list pydict :=
  [sample_project 1 (Some (JObj [("commit_count", JInt 12)]));
   sample_project 2 None;
   sample_project 3 (Some JNull)].

(** A server that knows alice and one project with a language breakdown,
    answers with an empty breakdown for project 2 and with 404 otherwise. *)
Definition sample_net : list event -> string -> string -> get_result :=
  fun _ url _ =>
    if String.eqb url "https://gitlab.example.com/api/v4/users?username=alice"
    then GetResponse (mkResponse 200 (Some (JArr [JObj alice; JObj carol])))
    else if String.eqb url "https://gitlab.example.com/api/v4/users?username=nobody"
    then GetResponse (mkResponse 200 (Some (JArr [])))
    else if String.eqb url "https://gitlab.example.com/api/v4/projects/1/languages"
    then GetResponse (mkResponse 200 (Some (JObj [("Python", JFloat (QArith_base.Qmake 1993 20));
                                                  ("Shell", JFloat (QArith_base.Qmake 7 20))])))
    else if String.eqb url "https://gitlab.example.com/api/v4/projects/2/languages"
    then GetResponse (mkResponse 200 (Some (JObj [])))
    else GetResponse (mkResponse 404 None).

(** A server that is down. *)
Definition dead_net : list event -> string -> string -> get_result :=
  fun _ _ _ => GetRaised ConnectionError.

Definition fresh : world :=
  {| ss_messages := None; ss_user_data := None; log := [] |}.

(** A session in which alice was selected earlier. *)
Definition alice_selected : world :=
  {| ss_messages := Some [mkMessage assistant "Hi there! Enter a GitLab username to begin profiling.";
                          mkMessage user "alice"];
     ss_user_data := Some (JObj alice);
     log := [] |}.


(** A list in which only the first record has the counters. *)
Definition sparse_projects : list pydict :=
  [sample_project 1 None; [("id", JInt 2); ("name", JStr "p2")]].

(** A list in which no record has the counters. *)
Definition bare_projects : list pydict :=
  [[("id", JInt 1); ("name", JStr "p1")]].

(** Servers that answer every request with an object, with an array, and
    with a list of one user who has no name. *)
Definition object_net : list event -> string -> string -> get_result :=
  fun _ _ _ => GetResponse (mkResponse 200 (Some (JObj [("message", JStr "ok")]))).

Definition array_net : list event -> string -> string -> get_result :=
  fun _ _ _ => GetResponse (mkResponse 200 (Some (JArr [JStr "Python"]))).

(** A server that answers every request with status 300 and a JSON array. *)
Definition redirect_net : list event -> string -> string -> get_result :=
  fun _ _ _ =>
    GetResponse (mkResponse 300 (Some (JArr [JObj [("id", JInt 1)]]))).

Definition nameless_net : list event -> string -> string -> get_result :=
  fun _ _ _ =>
    GetResponse (mkResponse 200 (Some (JArr [JObj [("id", JInt 5);
                                                   ("username", JStr "eve")]]))).

(** ** The program *)

Section App.

(** The configuration read from the environment by [os.getenv] (an unset
    variable is [None]), the network, and [repr] for the values whose text
    the script never inspects.  A response may depend on everything that
    happened before the request. *)
Variable GITLAB_URL GITLAB_TOKEN : option string.
Variable net : list event -> string -> string -> get_result.
Variable py_repr : json -> string.

(** [str(v)] as an f-string field formats it. *)
Definition format_value (v : json) : string :=
  match v with
  | JStr s => s
  | JNull => "None"
  | JBool true => "True"
  | JBool false => "False"
  | JInt z => pretty z
  | _ => py_repr v
  end.

(** [requests.get(url, headers=headers)]. *)
Definition requests_get (url authorization : string) : M response :=
  fun w =>
    let r := net (log w) url authorization in
    let w' := add_events w [EvGet url authorization r] in
    match r with
    | GetRaised e => (Raised (RequestException e), w')
    | GetResponse resp => (Ok resp, w')
    end.

Definition raise_for_status (r : response) : M unit :=
  if is_http_error (status_code r)
  then raise (RequestException (HTTPError (status_code r)))
  else ret tt.

(** [response.json()]: the parsed body, or [JSONDecodeError] for a body
    that is not JSON.  A body is [Some v] only when Python parses it to
    [v]; a document Python refuses for another reason (an integer literal
    beyond its digit limit makes [json()] raise a plain [ValueError]) has
    no counterpart here. *)
Definition response_json (r : response) : M json :=
  from_option (RequestException JSONDecodeError) (body r).

Definition headers : string := "Bearer " +:+ format_env GITLAB_TOKEN.

Definition users_url (username : string) : string :=
  format_env GITLAB_URL +:+ "/api/v4/users?username=" +:+ username.

Definition projects_url (user_id : json) : string :=
  format_env GITLAB_URL +:+ "/api/v4/users/" +:+ format_value user_id
    +:+ "/projects?statistics=true&per_page=100".

Definition languages_url (project_id : json) : string :=
  format_env GITLAB_URL +:+ "/api/v4/projects/" +:+ format_value project_id
    +:+ "/languages".

Definition fetch_gitlab_user (username : string) : M json :=
  try_except_request
    (let* response := requests_get (users_url username) headers in
     raise_for_status response ;;
     let* users := response_json response in
     if py_truthy users then py_index0 users else ret JNull)
    (fun e => emit (EvError "API Request Failed: " e) ;; ret JNull).

Definition fetch_user_projects (user_id : json) : M json :=
  try_except_request
    (let* response := requests_get (projects_url user_id) headers in
     raise_for_status response ;;
     response_json response)
    (fun _ => ret (JArr [])).

Definition get_project_languages (project_id : json) : M json :=
  try_except_request
    (let* response := requests_get (languages_url project_id) headers in
     raise_for_status response ;;
     response_json response)
    (fun _ => ret (JObj [])).

Definition display_full_profile (user : json) : M unit :=
  let* name := py_get user "name" JNull in
  emit (EvSubheader ("Full Profile: " +:+ format_value name)) ;;
  emit (EvColumns [1; 3]) ;;
  emit (EvEnterColumn 0) ;;
  let* avatar := py_get user "avatar_url" JNull in
  (if py_truthy avatar
   then let* src := py_getitem user "avatar_url" in emit (EvImage src 150)
   else ret tt) ;;
  emit (EvEnterColumn 1) ;;
  let* username := py_get user "username" JNull in
  emit (EvMarkdown ("**Username:** `" +:+ format_value username +:+ "`")) ;;
  let* uid := py_get user "id" JNull in
  emit (EvMarkdown ("**ID:** `" +:+ format_value uid +:+ "`")) ;;
  let* state := py_get user "state" JNull in
  emit (EvMarkdown ("**State:** `" +:+ format_value state +:+ "`")) ;;
  let* created_at := py_get user "created_at" (JStr "N/A") in
  let* pieces := py_str_split created_at "T"%char in
  let* joined := from_option IndexError (head pieces) in
  emit (EvMarkdown ("**Joined:** " +:+ joined)) ;;
  let* web_url := py_get user "web_url" JNull in
  emit (EvMarkdown ("**Profile:** [View on GitLab](" +:+ format_value web_url +:+ ")")) ;;
  emit (EvExpander "See all available profile details") ;;
  emit (EvJson user).

(** The projects as [pd.DataFrame] and the loop need them: an array of
    objects.  On any other truthy value the call ends with an exception
    too, though not always at the same line: pandas refuses a scalar at
    once, builds a frame for a list of scalars and fails at the selection of
    the three columns, and for a dict of lists fails only at
    [projects[:9]].  The model ends all these calls at the constructor, so
    what is stated about such inputs is what holds wherever the call
    ends. *)
Definition as_record (v : json) : option pydict :=
  match v with JObj d => Some d | _ => None end.

Definition as_records (v : json) : option (list pydict) :=
  match v with JArr items => mapM as_record items | _ => None end.

(** [df[names]] for a list of labels. *)
Definition select_columns (names : list string) (df : DataFrame) : M DataFrame :=
  match mapM (fun n => pair n <$> column_get n (df_columns df)) names with
  | Some cols => ret {| df_index := df_index df; df_columns := cols |}
  | None =>
      raise (KeyError
               (JArr (JStr <$> List.filter (fun n => negb (has_column n df)) names)))
  end.

(** [lambda x: x.get('commit_count', 0) if isinstance(x, dict) else 0]. *)
Definition commit_count_of (x : cell) : cell :=
  match x with
  | Some (JObj d) =>
      Some (match dict_get "commit_count" d with Some v => v | None => JInt 0 end)
  | _ => Some (JInt 0)
  end.

(** [df.set_index(name)]. *)
Definition set_index (name : string) (df : DataFrame) : M DataFrame :=
  match column_get name (df_columns df) with
  | Some series =>
      ret {| df_index := series; df_columns := drop_column name (df_columns df) |}
  | None => raise (KeyError (JStr name))
  end.

(** One turn of the loop over [projects[:9]].  The chart is built from
    whatever the dict holds; matplotlib itself refuses sizes that are not
    numbers, are negative or are all zero, so the statements that promise a
    chart are made for breakdowns of percentages ([is_breakdown]). *)
Definition language_cell (project : pydict) (col_idx : nat) : M unit :=
  let* col := from_option IndexError ([0; 1; 2]%nat !! col_idx) in
  emit (EvEnterColumn col) ;;
  let* name := py_getitem (JObj project) "name" in
  emit (EvSpinner ("Getting languages for " +:+ format_value name +:+ "...")) ;;
  let* pid := py_getitem (JObj project) "id" in
  let* languages := get_project_languages pid in
  if py_truthy languages then
    let* items := py_items languages in
    let* title := py_getitem (JObj project) "name" in
    let fig := {| fig_sizes := map snd items;
                  fig_labels := map fst items;
                  fig_title := title |} in
    emit (EvPyplot fig) ;;
    emit (EvCloseFigure fig)
  else
    let* name' := py_getitem (JObj project) "name" in
    emit (EvWrite ("**" +:+ format_value name' +:+ "**")) ;;
    emit (EvCaption "No language data available.").

Fixpoint language_cells (projects : list pydict) (col_idx : nat) : M unit :=
  match projects with
  | [] => ret tt
  | project :: rest =>
      language_cell project col_idx ;;
      language_cells rest ((col_idx + 1) mod 3)%nat
  end.

(** The frame given to [st.bar_chart]. *)
Definition stats_frame (records : list pydict) : M DataFrame :=
  let df := frame_of_records records in
  let* df_stats := select_columns ["name"; "star_count"; "forks_count"] df in
  let df_stats :=
    match column_get "statistics" (df_columns df) with
    | Some statistics =>
        {| df_index := df_index df_stats;
           df_columns := set_column "commit_count" (map commit_count_of statistics)
                           (df_columns df_stats) |}
    | None => df_stats
    end in
  set_index "name" df_stats.

Definition display_project_visuals (projects : json) : M unit :=
  emit (EvSubheader "Project Visualizations") ;;
  if negb (py_truthy projects) then
    emit (EvWarning "No projects found that are visible to you.")
  else
    let* records := from_option ValueError (as_records projects) in
    emit (EvMarkdown "#### Project Popularity & Activity") ;;
    let* chart := stats_frame records in
    emit (EvBarChart chart) ;;
    emit (EvMarkdown "#### Language Breakdown per Project (Matplotlib)") ;;
    emit (EvInfo "Fetching language data for each project... this may take a moment.") ;;
    emit (EvColumns [1; 1; 1]) ;;
    language_cells (take 9 records) 0.

(** *** The script *)

Definition get_messages : M (list message) :=
  fun w => (match ss_messages w with
            | Some msgs => Ok msgs
            | None => Raised AttributeError
            end, w).

Definition get_user_data : M json :=
  fun w => (match ss_user_data w with
            | Some v => Ok v
            | None => Raised AttributeError
            end, w).

Definition set_user_data (v : json) : M unit :=
  fun w => (Ok tt, {| ss_messages := ss_messages w;
                      ss_user_data := Some v;
                      log := log w |}).

(** Lines 20-23: the keys are created on the first run only. *)
Definition init_session : M unit :=
  fun w => (Ok tt,
            {| ss_messages := match ss_messages w with
                              | Some msgs => Some msgs
                              | None => Some []
                              end;
               ss_user_data := match ss_user_data w with
                               | Some v => Some v
                               | None => Some JNull
                               end;
               log := log w |}).

Definition add_message (r : role) (content : string) : M unit :=
  fun w => match ss_messages w with
           | Some msgs =>
               (Ok tt, {| ss_messages := Some (msgs ++ [mkMessage r content]);
                          ss_user_data := ss_user_data w;
                          log := log w |})
           | None => (Raised AttributeError, w)
           end.

Definition greeting : message :=
  mkMessage assistant "Hi there! Enter a GitLab username to begin profiling.".

Fixpoint show_messages (msgs : list message) : M unit :=
  match msgs with
  | [] => ret tt
  | m :: rest =>
      emit (EvChatMessage (msg_role m)) ;;
      emit (EvMarkdown (msg_content m)) ;;
      show_messages rest
  end.

(** What the visitor did to trigger this run of the script. *)
Inductive action : Type :=
  | NoAction
  | Submit (prompt : string)
  | ClickProfile
  | ClickVisuals.

(** Lines 143-152, the body of [if prompt := st.chat_input(...)]. *)
Definition handle_prompt (prompt : string) : M unit :=
  add_message user prompt ;;
  set_user_data JNull ;;
  emit (EvSpinner ("Searching for '" +:+ prompt +:+ "'...")) ;;
  let* user_data := fetch_gitlab_user prompt in
  (if py_truthy user_data then
     set_user_data user_data ;;
     let* name := py_getitem user_data "name" in
     let* username := py_getitem user_data "username" in
     add_message assistant
       ("Found user **" +:+ format_value name +:+ "** (`"
          +:+ format_value username +:+ "`). What would you like to see?")
   else
     add_message assistant
       ("Sorry, I couldn't find a user with the username '" +:+ prompt +:+ "'.")) ;;
  raise RerunException.

(** Lines 20-23 and 130-136: the session keys, the title, the greeting. *)
Definition startup : M unit :=
  init_session ;;
  emit (EvTitle "🤖 GitLab Advanced Profiler") ;;
  let* msgs := get_messages in
  match msgs with
  | [] => add_message assistant "Hi there! Enter a GitLab username to begin profiling."
  | _ :: _ => ret tt
  end.

(** Lines 138-163: the transcript, the chat input, the two buttons. *)
Definition interaction (a : action) : M unit :=
  let* msgs := get_messages in
  show_messages msgs ;;
  (match a with
   | Submit (String c rest) => handle_prompt (String c rest)
   | _ => ret tt
   end) ;;
  let* selected := get_user_data in
  if py_truthy selected then
    emit (EvMarkdown "---") ;;
    emit (EvColumns [1; 1; 2]) ;;
    emit (EvEnterColumn 0) ;;
    emit (EvButton "👤 View Full Profile") ;;
    (match a with
     | ClickProfile => display_full_profile selected
     | _ => ret tt
     end) ;;
    emit (EvEnterColumn 1) ;;
    emit (EvButton "📊 View Project Visuals") ;;
    (match a with
     | ClickVisuals =>
         let* uid := py_getitem selected "id" in
         let* projects := fetch_user_projects uid in
         display_project_visuals projects
     | _ => ret tt
     end)
  else ret tt.

(** One execution of the script from its first line. *)
Definition script (a : action) : M unit :=
  startup ;; interaction a.

(** A run started by the visitor; [st.rerun()] stops the script and runs it
    once more, this time with no widget triggered. *)
Definition run (a : action) (w : world) : result unit * world :=
  match script a w with
  | (Raised RerunException, w') => script NoAction w'
  | r => r
  end.

(** The sessions the program can be in between two runs. *)
Inductive reachable : world -> Prop :=
  | reachable_fresh : reachable fresh
  | reachable_run a w : reachable w -> reachable (snd (run a w)).

(** The transcript; a session that never ran has none yet. *)
Definition messages_of (w : world) : list message :=
  match ss_messages w with Some msgs => msgs | None => [] end.

(** The world in which the lookup of [handle_prompt] runs: the prompt is
    in the transcript, the selection is cleared, the spinner is shown. *)
Definition searching (prompt : string) (w : world) : world :=
  snd ((add_message user prompt ;;
        set_user_data JNull ;;
        emit (EvSpinner ("Searching for '" +:+ prompt +:+ "'..."))) w).

(** The world in which the chat handler starts during a run: the session
    is initialised and the transcript is on the page. *)
Definition chat_entry (w : world) : world :=
  snd ((startup ;; let* msgs := get_messages in show_messages msgs) w).

(** ** Observations on the log *)

Definition fetched_urls (evs : list event) : list string :=
  omap (fun ev => match ev with EvGet url _ _ => Some url | _ => None end) evs.

Definition bar_charts (evs : list event) : list DataFrame :=
  omap (fun ev => match ev with EvBarChart d => Some d | _ => None end) evs.

Definition pie_charts (evs : list event) : list figure :=
  omap (fun ev => match ev with EvPyplot fig => Some fig | _ => None end) evs.

Definition is_bar_chart (ev : event) : bool :=
  match ev with EvBarChart _ => true | _ => false end.

Fixpoint strip_prefix (p s : string) : option string :=
  match p, s with
  | EmptyString, _ => Some s
  | String a p', String b s' => if Ascii.eqb a b then strip_prefix p' s' else None
  | String _ _, EmptyString => None
  end.

(** The values shown after the Joined label. *)
Definition joined_lines (evs : list event) : list string :=
  omap (fun ev => match ev with
                  | EvMarkdown text => strip_prefix "**Joined:** " text
                  | _ => None
                  end) evs.

(** The series labels of a chart. *)
Definition series_names (chart : DataFrame) : list string :=
  map fst (df_columns chart).

(** ** Well-formed inputs *)

(** A project record carries the four fields the source reads without a
    default. *)
Definition is_project (p : pydict) : bool :=
  dict_has "id" p && dict_has "name" p
  && dict_has "star_count" p && dict_has "forks_count" p.

Definition is_object (v : json) : bool :=
  match v with JObj _ => true | _ => false end.

(** The call failed: [requests.get] raised, or the status is one that
    [raise_for_status] rejects. *)
Definition failed (r : get_result) : bool :=
  match r with
  | GetRaised _ => true
  | GetResponse resp => is_http_error (status_code resp)
  end.

(** The languages endpoint keeps its contract: a reply that is not a
    failure and parses carries an object. *)
Definition languages_reply_ok (r : get_result) : bool :=
  match r with
  | GetRaised _ => true
  | GetResponse resp =>
      is_http_error (status_code resp)
      || match body resp with Some v => is_object v | None => true end
  end.

Definition answers_languages (p : pydict) : Prop :=
  forall h pid, dict_get "id" p = Some pid ->
    languages_reply_ok (net h (languages_url pid) headers) = true.

(** The value [get_project_languages] returns for a reply of the network:
    the parsed body of a reply that passes [raise_for_status] and parses,
    the empty dict of the [except] clause otherwise. *)
Definition languages_of_reply (r : get_result) : json :=
  match r with
  | GetRaised _ => JObj []
  | GetResponse resp =>
      if is_http_error (status_code resp) then JObj []
      else match body resp with Some v => v | None => JObj [] end
  end.

(** The reply gives nothing to plot: the call failed, the body does not
    parse, or the parsed value is empty. *)
Definition no_languages (r : get_result) : bool :=
  match r with
  | GetRaised _ => true
  | GetResponse resp =>
      is_http_error (status_code resp)
      || match body resp with Some v => negb (py_truthy v) | None => true end
  end.

(** What one project of the grid leaves in the log: its column, the
    spinner, one request for its languages, and then either a pie chart of
    the breakdown titled with its name, or the two lines of the text
    fallback when the reply gives nothing to plot. *)
Inductive cell_trace (p : pydict) : list event -> Prop :=
  | cell_chart col name pid status k v items :
      dict_get "name" p = Some name ->
      dict_get "id" p = Some pid ->
      is_http_error status = false ->
      cell_trace p
        [EvEnterColumn col;
         EvSpinner ("Getting languages for " +:+ format_value name +:+ "...");
         EvGet (languages_url pid) headers
           (GetResponse (mkResponse status (Some (JObj ((k, v) :: items)))));
         EvPyplot {| fig_sizes := v :: map snd items;
                     fig_labels := k :: map fst items;
                     fig_title := name |};
         EvCloseFigure {| fig_sizes := v :: map snd items;
                          fig_labels := k :: map fst items;
                          fig_title := name |}]
  | cell_fallback col name pid reply :
      dict_get "name" p = Some name ->
      dict_get "id" p = Some pid ->
      no_languages reply = true ->
      cell_trace p
        [EvEnterColumn col;
         EvSpinner ("Getting languages for " +:+ format_value name +:+ "...");
         EvGet (languages_url pid) headers reply;
         EvWrite ("**" +:+ format_value name +:+ "**");
         EvCaption "No language data available."].


(** The address asked for the languages of a project. *)
Definition project_languages_url (p : pydict) : string :=
  languages_url (default JNull (dict_get "id" p)).

(** The transcript once the greeting step has run on it. *)
Definition greeted (msgs : list message) : list message :=
  match msgs with [] => [greeting] | _ :: _ => msgs end.

(** A statement that only logs events accepted by [P] and only appends to
    the transcript. *)
Definition behaves (P : event -> bool) {A} (m : M A) : Prop :=
  forall w, exists evs suffix,
    log (snd (m w)) = log w ++ evs /\
    forallb P evs = true /\
    messages_of (snd (m w)) = messages_of w ++ suffix.


(** Every event but a bar chart. *)
Definition no_bar_chart (ev : event) : bool := negb (is_bar_chart ev).

Definition any_event (ev : event) : bool := true.

(** ** Further observations *)

(** The exception the [try] block of a helper ends with for a reply, if
    any: the one [requests.get] raised, the [HTTPError] of
    [raise_for_status], or the [JSONDecodeError] of [response.json()]. *)
Definition request_failure (r : get_result) : option request_error :=
  match r with
  | GetRaised e => Some e
  | GetResponse resp =>
      if is_http_error (status_code resp)
      then Some (HTTPError (status_code resp))
      else match body resp with Some _ => None | None => Some JSONDecodeError end
  end.

(** The parsed body of a reply that gets through the [try] block. *)
Definition reply_body (r : get_result) : option json :=
  match r with
  | GetRaised _ => None
  | GetResponse resp => if is_http_error (status_code resp) then None else body resp
  end.

Definition is_request (ev : event) : bool :=
  match ev with EvGet _ _ _ => true | _ => false end.

Definition no_request (ev : event) : bool := negb (is_request ev).

Definition columns_entered (evs : list event) : list nat :=
  omap (fun ev => match ev with EvEnterColumn i => Some i | _ => None end) evs.

Definition closed_figures (evs : list event) : list figure :=
  omap (fun ev => match ev with EvCloseFigure fig => Some fig | _ => None end) evs.

(** The calls of [st.image], with their arguments. *)
Definition images (evs : list event) : list (json * Z) :=
  omap (fun ev => match ev with EvImage src width => Some (src, width) | _ => None end)
    evs.

Definition warnings (evs : list event) : list string :=
  omap (fun ev => match ev with EvWarning text => Some text | _ => None end) evs.

Definition errors (evs : list event) : list (string * request_error) :=
  omap (fun ev => match ev with EvError text e => Some (text, e) | _ => None end) evs.

Definition buttons (evs : list event) : list string :=
  omap (fun ev => match ev with EvButton label => Some label | _ => None end) evs.

(** The events that put a transcript on the page. *)
Definition transcript_events (msgs : list message) : list event :=
  flat_map (fun m => [EvChatMessage (msg_role m); EvMarkdown (msg_content m)]) msgs.

(** A statement that does the same in every world: the same result, the
    same events, all accepted by [P], and nothing else. *)
Definition static (P : event -> bool) {A} (m : M A) : Prop :=
  exists r evs, forallb P evs = true /\ forall w, m w = (r, add_events w evs).

(** A statement that leaves the session as it is and only adds events. *)
Definition draws {A} (m : M A) : Prop :=
  forall w, exists r evs, m w = (r, add_events w evs).

(** The run was not started by a submitted username. *)
Definition no_submission (a : action) : bool :=
  match a with Submit (String _ _) => false | _ => true end.

(** The labels among [names] that no record has as a key. *)
Definition missing_fields (names : list string) (records : list pydict) : list string :=
  List.filter (fun n => negb (existsb (dict_has n) records)) names.

Definition is_figure_event (ev : event) : bool :=
  match ev with EvPyplot _ | EvCloseFigure _ => true | _ => false end.

(** Every figure shown is closed by the very next event, and nothing else
    is closed. *)
Inductive figures_released : list event -> Prop :=
  | released_nil : figures_released []
  | released_pair fig evs :
      figures_released evs ->
      figures_released (EvPyplot fig :: EvCloseFigure fig :: evs)
  | released_skip ev evs :
      is_figure_event ev = false ->
      figures_released evs ->
      figures_released (ev :: evs).

(** The reply leaves the project view nothing to show: the call failed or
    the parsed body is empty. *)
Definition no_projects (r : get_result) : bool :=
  match reply_body r with Some v => negb (py_truthy v) | None => true end.

(** The two buttons under the transcript, as lines 155-161 draw them when
    no button is pressed. *)
Definition view_buttons : list event :=
  [EvMarkdown "---"; EvColumns [1; 1; 2];
   EvEnterColumn 0; EvButton "👤 View Full Profile";
   EvEnterColumn 1; EvButton "📊 View Project Visuals"].

(** ** The data model of the inputs *)

(** A success status of HTTP: 2xx. *)
Definition is_success (status : Z) : bool := (200 <=? status) && (status <? 300).

Definition no_dollar (s : string) : bool := negb (str_contains "$" s).

(** A counter of the listing: an integer that is not negative. *)
Definition is_count (o : cell) : bool :=
  match o with Some (JInt z) => 0 <=? z | _ => false end.

(** A project as the listing of the server gives it: an integer [id], a
    [name] that is a string (free of the dollar sign, which matplotlib
    reads as markup in a title), counters for stars and forks, and, when
    [statistics] is a dict with a [commit_count], a counter there too. *)
Definition typed_project (p : pydict) : bool :=
  match dict_get "id" p with Some (JInt _) => true | _ => false end
  && match dict_get "name" p with Some (JStr s) => no_dollar s | _ => false end
  && is_count (dict_get "star_count" p)
  && is_count (dict_get "forks_count" p)
  && match dict_get "statistics" p with
     | Some (JObj d) =>
         match dict_get "commit_count" d with
         | Some v => is_count (Some v)
         | None => true
         end
     | _ => true
     end.

(** A percentage: a number from 0 to 100. *)
Definition is_percentage (v : json) : bool :=
  match v with
  | JInt z => (0 <=? z) && (z <=? 100)
  | JFloat q =>
      (0 <=? QArith_base.Qnum q)
      && (QArith_base.Qnum q <=? 100 * Z.pos (QArith_base.Qden q))
  | _ => false
  end.

(** A share that does not vanish in the single precision matplotlib
    computes with: a hundredth or more, the resolution of the server. *)
Definition is_visible_share (v : json) : bool :=
  match v with
  | JInt z => 1 <=? z
  | JFloat q => Z.pos (QArith_base.Qden q) <=? 100 * QArith_base.Qnum q
  | _ => false
  end.

(** A language breakdown: a dict from language names to percentages, empty
    or with a share to plot. *)
Definition is_breakdown (v : json) : bool :=
  match v with
  | JObj [] => true
  | JObj items =>
      forallb (fun kv => no_dollar (fst kv) && is_percentage (snd kv)) items
      && existsb (fun kv => is_visible_share (snd kv)) items
  | _ => false
  end.

(** The languages endpoint fails or answers with a breakdown. *)
Definition breakdown_reply (r : get_result) : bool :=
  match r with
  | GetRaised _ => true
  | GetResponse resp =>
      is_http_error (status_code resp)
      || match body resp with Some v => is_breakdown v | None => true end
  end.

Definition serves_breakdowns (p : pydict) : Prop :=
  forall h pid, dict_get "id" p = Some pid ->
    breakdown_reply (net h (languages_url pid) headers) = true.

(** ** Properties *)

Lemma add_events_app w evs1 evs2 :
  add_events (add_events w evs1) evs2 = add_events w (evs1 ++ evs2).
Proof. unfold add_events; simpl. by rewrite <- app_assoc. Qed.

Lemma add_events_nil w : add_events w [] = w.
Proof. destruct w; unfold add_events; simpl. by rewrite app_nil_r. Qed.

(** *** The HTTP helpers *)

(** C1.  When the users endpoint answers with an array of matches,
    [fetch_gitlab_user] returns the first element of the array, however
    long the array is, and [None] when the array is empty. *)
Theorem fetch_gitlab_user_first_match username w status users :
  net (log w) (users_url username) headers
    = GetResponse (mkResponse status (Some (JArr users))) ->
  is_http_error status = false ->
  (forall first others, users = first :: others ->
     fst (fetch_gitlab_user username w) = Ok first) /\
  (users = [] -> fst (fetch_gitlab_user username w) = Ok JNull).
Proof.
  intros Hnet Hstatus.
  assert (Hrun : fst (fetch_gitlab_user username w)
                 = Ok (match users with [] => JNull | first :: _ => first end)).
  { unfold fetch_gitlab_user, try_except_request, bind, requests_get.
    rewrite Hnet; simpl.
    unfold raise_for_status; simpl. rewrite Hstatus; simpl.
    destruct users; reflexivity. }
  split.
  - intros first others ->. exact Hrun.
  - intros ->. exact Hrun.
Qed.

(** C2, as the code has it.  When the HTTP call fails as [requests] sees
    it (the transport raises, or the status is one [raise_for_status]
    rejects, 400 to 599), [fetch_user_projects] returns the empty list and
    [get_project_languages] the empty dict, both after their one request
    and without raising.  Another status is no failure for the code, 3xx
    included. *)
Theorem fail_soft_on_failure v w :
  (failed (net (log w) (projects_url v) headers) = true ->
     fetch_user_projects v w
     = (Ok (JArr []),
        add_events w [EvGet (projects_url v) headers
                        (net (log w) (projects_url v) headers)])) /\
  (failed (net (log w) (languages_url v) headers) = true ->
     get_project_languages v w
     = (Ok (JObj []),
        add_events w [EvGet (languages_url v) headers
                        (net (log w) (languages_url v) headers)])).
Proof.
  split.
  - unfold fetch_user_projects, try_except_request, bind, requests_get.
    destruct (net _ _ _) as [e | resp]; simpl; [reflexivity |].
    intros Hfailed. unfold raise_for_status. by rewrite Hfailed.
  - unfold get_project_languages, try_except_request, bind, requests_get.
    destruct (net _ _ _) as [e | resp]; simpl; [reflexivity |].
    intros Hfailed. unfold raise_for_status. by rewrite Hfailed.
Qed.

(** *** The project view *)

(** C7.  On the empty list [display_project_visuals] draws the heading and
    the notice and returns: no bar chart, no request. *)
Theorem display_project_visuals_empty w :
  exists evs,
    display_project_visuals (JArr []) w = (Ok tt, add_events w evs) /\
    evs = [EvSubheader "Project Visualizations";
           EvWarning "No projects found that are visible to you."] /\
    bar_charts evs = [] /\
    pie_charts evs = [] /\
    fetched_urls evs = [].
Proof.
  eexists. split; [| split; [reflexivity | by split_and!]].
  unfold display_project_visuals, bind, emit; simpl.
  by rewrite add_events_app.
Qed.

(** *** The profile view *)

Lemma py_split_head c s :
  exists first others,
    py_split c s = first :: others /\
    str_contains c first = false /\
    ((others = [] /\ s = first) \/ exists tail, s = first +:+ String c tail).
Proof.
  induction s as [| a s (first & others & Hsplit & Hfree & Hshape)]; simpl.
  - exists EmptyString, []. auto.
  - destruct (Ascii.eqb a c) eqn:Hac.
    + apply Ascii.eqb_eq in Hac as ->.
      exists EmptyString, (py_split c s). split_and!; eauto.
    + rewrite Hsplit. exists (String a first), others. simpl. rewrite Hac.
      split_and!; auto.
      destruct Hshape as [[-> ->] | [tail ->]]; eauto.
Qed.



(** *** What a statement may do *)

Lemma behaves_weaken (P Q : event -> bool) {A} (m : M A) :
  (forall ev, P ev = true -> Q ev = true) -> behaves P m -> behaves Q m.
Proof.
  intros HPQ Hm w. destruct (Hm w) as (evs & suffix & Hlog & HP & Hmsgs).
  exists evs, suffix. split_and!; try done.
  apply forallb_forall. intros ev Hev.
  apply HPQ. by eapply forallb_forall in HP.
Qed.

Lemma behaves_pure P {A} (m : M A) : (forall w, snd (m w) = w) -> behaves P m.
Proof.
  intros Hpure w. exists [], []. rewrite Hpure, !app_nil_r. done.
Qed.

Lemma behaves_ret P {A} (a : A) : behaves P (ret a).
Proof. by apply behaves_pure. Qed.

Lemma behaves_raise P {A} e : behaves P (@raise A e).
Proof. by apply behaves_pure. Qed.

Lemma behaves_from_option P {A} e (o : option A) : behaves P (from_option e o).
Proof. apply behaves_pure. by destruct o. Qed.

Lemma behaves_bind P {A B} (m : M A) (k : A -> M B) :
  behaves P m -> (forall a, behaves P (k a)) -> behaves P (bind m k).
Proof.
  intros Hm Hk w. unfold bind.
  destruct (Hm w) as (evs1 & suffix1 & Hlog1 & HP1 & Hmsgs1).
  destruct (m w) as [[a | e] w1]; simpl in *.
  - destruct (Hk a w1) as (evs2 & suffix2 & Hlog2 & HP2 & Hmsgs2).
    exists (evs1 ++ evs2), (suffix1 ++ suffix2).
    rewrite Hlog2, Hlog1, Hmsgs2, Hmsgs1, !app_assoc, forallb_app, HP1, HP2. done.
  - by exists evs1, suffix1.
Qed.

Lemma behaves_try P {A} (body : M A) handler :
  behaves P body -> (forall e, behaves P (handler e)) ->
  behaves P (try_except_request body handler).
Proof.
  intros Hbody Hhandler w. unfold try_except_request.
  destruct (Hbody w) as (evs1 & suffix1 & Hlog1 & HP1 & Hmsgs1).
  destruct (body w) as [[a | e] w1]; simpl in *; [by exists evs1, suffix1 |].
  destruct e; try by exists evs1, suffix1.
  destruct (Hhandler e w1) as (evs2 & suffix2 & Hlog2 & HP2 & Hmsgs2).
  exists (evs1 ++ evs2), (suffix1 ++ suffix2).
  rewrite Hlog2, Hlog1, Hmsgs2, Hmsgs1, !app_assoc, forallb_app, HP1, HP2. done.
Qed.

Lemma behaves_emit P ev : P ev = true -> behaves P (emit ev).
Proof.
  intros Hev w. exists [ev], []. simpl. rewrite Hev, app_nil_r. done.
Qed.

Lemma behaves_requests_get P url authorization :
  (forall r, P (EvGet url authorization r) = true) ->
  behaves P (requests_get url authorization).
Proof.
  intros HP w. unfold requests_get.
  exists [EvGet url authorization (net (log w) url authorization)], [].
  destruct (net _ _ _); simpl; rewrite HP, app_nil_r; done.
Qed.

Lemma behaves_add_message P r content : behaves P (add_message r content).
Proof.
  intros w. unfold add_message, messages_of.
  destruct (ss_messages w) as [msgs |] eqn:Hmsgs; simpl.
  - exists [], [mkMessage r content]. by rewrite app_nil_r.
  - exists [], []. by rewrite Hmsgs, app_nil_r.
Qed.

Lemma behaves_set_user_data P v : behaves P (set_user_data v).
Proof. intros w. exists [], []. simpl. rewrite !app_nil_r. done. Qed.

Lemma behaves_init_session P : behaves P init_session.
Proof.
  intros w. exists [], []. unfold messages_of; simpl.
  rewrite !app_nil_r. by destruct (ss_messages w).
Qed.

Lemma behaves_py_index0 P v : behaves P (py_index0 v).
Proof.
  apply behaves_pure. intros w.
  destruct v as [| | | | s | items |]; try done.
  - unfold py_index0. by destruct (first_char s).
  - by destruct items.
Qed.

Lemma behaves_py_getitem P v k : behaves P (py_getitem v k).
Proof.
  apply behaves_pure. intros w. destruct v as [| | | | | | d]; try done.
  simpl. by destruct (dict_get k d).
Qed.

Lemma behaves_py_get P v k default : behaves P (py_get v k default).
Proof. apply behaves_pure. intros w. by destruct v. Qed.

Lemma behaves_py_str_split P v c : behaves P (py_str_split v c).
Proof. apply behaves_pure. intros w. by destruct v. Qed.

Lemma behaves_py_items P v : behaves P (py_items v).
Proof. apply behaves_pure. intros w. by destruct v. Qed.

Lemma behaves_get_messages P : behaves P get_messages.
Proof. by apply behaves_pure. Qed.

Lemma behaves_get_user_data P : behaves P get_user_data.
Proof. by apply behaves_pure. Qed.

Lemma behaves_raise_for_status P r : behaves P (raise_for_status r).
Proof.
  apply behaves_pure. intros w. unfold raise_for_status.
  by destruct (is_http_error _).
Qed.

Lemma stats_frame_pure records w : snd (stats_frame records w) = w.
Proof.
  unfold stats_frame, bind, select_columns.
  destruct (mapM _ _) as [cols |]; simpl; [| done].
  unfold set_index. by destruct (column_get "name" _).
Qed.

Ltac behaves_step :=
  first
    [ assumption
    | apply behaves_ret
    | apply behaves_raise
    | apply behaves_from_option
    | apply behaves_emit; reflexivity
    | apply behaves_requests_get; reflexivity
    | apply behaves_add_message
    | apply behaves_set_user_data
    | apply behaves_init_session
    | apply behaves_py_index0
    | apply behaves_py_getitem
    | apply behaves_py_get
    | apply behaves_py_str_split
    | apply behaves_py_items
    | apply behaves_get_messages
    | apply behaves_get_user_data
    | apply behaves_raise_for_status
    | apply behaves_pure; apply stats_frame_pure
    | match goal with
      | |- behaves _ (match ?x with _ => _ end) => destruct x
      end
    | apply behaves_bind; [| intros ?]
    | apply behaves_try; [| intros ?] ].

Lemma behaves_fetch_gitlab_user P username :
  (forall ev, is_bar_chart ev = false -> P ev = true) ->
  behaves P (fetch_gitlab_user username).
Proof.
  intros HP. unfold fetch_gitlab_user, response_json.
  repeat first [behaves_step | apply behaves_emit; by apply HP
               | apply behaves_requests_get; intros; by apply HP].
Qed.

Lemma behaves_fetch_user_projects P user_id :
  (forall ev, is_bar_chart ev = false -> P ev = true) ->
  behaves P (fetch_user_projects user_id).
Proof.
  intros HP. unfold fetch_user_projects, response_json.
  repeat first [behaves_step | apply behaves_requests_get; intros; by apply HP].
Qed.

Lemma behaves_get_project_languages P project_id :
  (forall ev, is_bar_chart ev = false -> P ev = true) ->
  behaves P (get_project_languages project_id).
Proof.
  intros HP. unfold get_project_languages, response_json.
  repeat first [behaves_step | apply behaves_requests_get; intros; by apply HP].
Qed.

Lemma behaves_display_full_profile P user_record :
  (forall ev, is_bar_chart ev = false -> P ev = true) ->
  behaves P (display_full_profile user_record).
Proof.
  intros HP. unfold display_full_profile.
  repeat first [behaves_step | apply behaves_emit; by apply HP].
Qed.

Lemma behaves_language_cell P project col_idx :
  (forall ev, is_bar_chart ev = false -> P ev = true) ->
  behaves P (language_cell project col_idx).
Proof.
  intros HP. unfold language_cell.
  repeat first [by apply behaves_get_project_languages
               | behaves_step | apply behaves_emit; by apply HP].
Qed.

Lemma behaves_language_cells P projects col_idx :
  (forall ev, is_bar_chart ev = false -> P ev = true) ->
  behaves P (language_cells projects col_idx).
Proof.
  intros HP. revert col_idx.
  induction projects as [| project others IH]; intros col_idx; simpl.
  - apply behaves_ret.
  - apply behaves_bind; [by apply behaves_language_cell | intros _; apply IH].
Qed.

Lemma behaves_display_project_visuals projects :
  behaves any_event (display_project_visuals projects).
Proof.
  unfold display_project_visuals.
  repeat first [by apply behaves_language_cells | behaves_step].
Qed.

Lemma behaves_show_messages msgs : behaves any_event (show_messages msgs).
Proof.
  induction msgs as [| m others IH]; simpl; repeat behaves_step.
Qed.

Lemma behaves_handle_prompt prompt : behaves any_event (handle_prompt prompt).
Proof.
  unfold handle_prompt.
  repeat first [by apply behaves_fetch_gitlab_user | behaves_step].
Qed.

Lemma behaves_interaction a : behaves any_event (interaction a).
Proof.
  unfold interaction.
  repeat first [apply behaves_show_messages
               | apply behaves_handle_prompt
               | by apply behaves_display_full_profile
               | by apply behaves_fetch_user_projects
               | apply behaves_display_project_visuals
               | behaves_step].
Qed.

(** *** The transcript *)

Lemma startup_transcript w :
  exists w', startup w = (Ok tt, w') /\ messages_of w' = greeted (messages_of w).
Proof.
  destruct w as [[[| m msgs] |] selected events]; eexists; split; reflexivity.
Qed.

Lemma greeted_app msgs suffix :
  greeted (greeted msgs ++ suffix) = greeted msgs ++ suffix.
Proof. by destruct msgs. Qed.

Lemma script_transcript a w :
  exists suffix, messages_of (snd (script a w)) = greeted (messages_of w) ++ suffix.
Proof.
  unfold script, bind.
  destruct (startup_transcript w) as (w1 & -> & Hgreeted).
  destruct (behaves_interaction a w1) as (evs & suffix & _ & _ & Hmsgs).
  exists suffix. by rewrite Hmsgs, Hgreeted.
Qed.

Lemma run_transcript a w :
  exists suffix, messages_of (snd (run a w)) = greeted (messages_of w) ++ suffix.
Proof.
  unfold run.
  destruct (script_transcript a w) as (suffix1 & Hfirst).
  destruct (script a w) as [[[] | e] w1]; simpl in *; [by eauto |].
  destruct e; simpl; try by eauto.
  destruct (script_transcript NoAction w1) as (suffix2 & Hsecond).
  exists (suffix1 ++ suffix2).
  by rewrite Hsecond, Hfirst, greeted_app, app_assoc.
Qed.

(** C8.  The transcript is append-only: [add_message], the chat handler
    and every run of the script leave the messages they find in place, in
    order, and at most add messages after them. *)
Theorem transcript_append_only :
  (forall r content w,
     exists suffix,
       messages_of (snd (add_message r content w)) = messages_of w ++ suffix) /\
  (forall prompt w,
     exists suffix,
       messages_of (snd (handle_prompt prompt w)) = messages_of w ++ suffix) /\
  (forall a w,
     exists suffix, messages_of (snd (run a w)) = messages_of w ++ suffix).
Proof.
  split_and!.
  - intros r content w.
    destruct (behaves_add_message any_event r content w) as (_ & suffix & _ & _ & H).
    eauto.
  - intros prompt w.
    destruct (behaves_handle_prompt prompt w) as (_ & suffix & _ & _ & H). eauto.
  - intros a w. destruct (run_transcript a w) as (suffix & ->).
    destruct (messages_of w); simpl; eauto.
Qed.

(** C10.  In every session the program can reach, a transcript that is not
    empty starts with the greeting of the assistant. *)
Theorem transcript_starts_with_greeting w :
  reachable w ->
  forall m others, messages_of w = m :: others ->
    m = greeting /\ msg_role m = assistant.
Proof.
  induction 1 as [| a w Hreach IH]; intros m others; [done |].
  destruct (run_transcript a w) as (suffix & ->).
  destruct (messages_of w) as [| m0 msgs]; simpl.
  - by intros [= <- _].
  - intros [= <- _]. by eapply IH.
Qed.

(** *** The selection *)

Lemma startup_session w :
  exists w',
    startup w = (Ok tt, w') /\
    ss_messages w' = Some (greeted (messages_of w)) /\
    ss_user_data w' = Some (default JNull (ss_user_data w)).
Proof.
  destruct w as [[[| m msgs] |] [selected |] events];
    eexists; split_and!; reflexivity.
Qed.

Lemma show_messages_run msgs w :
  exists evs, show_messages msgs w = (Ok tt, add_events w evs).
Proof.
  revert w. induction msgs as [| m msgs IH]; intros w; simpl.
  - exists []. by rewrite add_events_nil.
  - unfold bind, emit.
    destruct (IH (add_events (add_events w [EvChatMessage (msg_role m)])
                    [EvMarkdown (msg_content m)])) as (evs & ->).
    eexists. by rewrite !add_events_app.
Qed.

Lemma handle_prompt_not_found prompt w msgs :
  ss_messages w = Some msgs ->
  fst (fetch_gitlab_user prompt (searching prompt w)) = Ok JNull ->
  exists w',
    handle_prompt prompt w = (Raised RerunException, w') /\
    ss_user_data w' = Some JNull /\
    ss_messages w'
      = Some (msgs ++ [mkMessage user prompt;
                       mkMessage assistant
                         ("Sorry, I couldn't find a user with the username '"
                            +:+ prompt +:+ "'.")]).
Proof.
  intros Hmsgs Hlookup.
  assert (Hkept : forall w1,
             ss_messages (snd (fetch_gitlab_user prompt w1)) = ss_messages w1 /\
             ss_user_data (snd (fetch_gitlab_user prompt w1)) = ss_user_data w1).
  { intros w1.
    unfold fetch_gitlab_user, try_except_request, bind, requests_get,
      raise_for_status, response_json.
    destruct (net _ _ _) as [e | [status [v |]]]; simpl; auto;
      destruct (is_http_error status); simpl; auto.
    destruct (py_truthy v); simpl; auto.
    unfold py_index0.
    destruct v as [| | | | s | items |]; simpl; auto.
    - by destruct (first_char s).
    - by destruct items. }
  assert (Hentry : ss_messages (searching prompt w)
                    = Some (msgs ++ [mkMessage user prompt]) /\
                   ss_user_data (searching prompt w) = Some JNull).
  { unfold searching, bind, add_message. by rewrite Hmsgs. }
  assert (Hunfold : handle_prompt prompt w
            = ((let* user_data := fetch_gitlab_user prompt in
                (if py_truthy user_data then
                   set_user_data user_data ;;
                   let* name := py_getitem user_data "name" in
                   let* username := py_getitem user_data "username" in
                   add_message assistant
                     ("Found user **" +:+ format_value name +:+ "** (`"
                        +:+ format_value username
                        +:+ "`). What would you like to see?")
                 else
                   add_message assistant
                     ("Sorry, I couldn't find a user with the username '"
                        +:+ prompt +:+ "'.")) ;;
                raise RerunException) (searching prompt w))).
  { unfold handle_prompt, searching, bind, add_message. by rewrite Hmsgs. }
  rewrite Hunfold. clear Hunfold.
  destruct Hentry as [Hm1 Hu1].
  destruct (Hkept (searching prompt w)) as [Hm2 Hu2].
  unfold bind at 1.
  destruct (fetch_gitlab_user prompt (searching prompt w)) as [r w2].
  simpl in *. subst r. simpl.
  unfold bind, add_message. rewrite Hm2, Hm1. simpl.
  eexists. split_and!; try reflexivity.
  - simpl. by rewrite Hu2.
  - simpl. by rewrite <- app_assoc.
Qed.

Lemma script_idle w :
  ss_user_data w = Some JNull ->
  ss_user_data (snd (script NoAction w)) = Some JNull.
Proof.
  intros Hnone.
  destruct (startup_session w) as (w1 & Hstart & Hmsgs & Hselected).
  rewrite Hnone in Hselected. simpl in Hselected.
  destruct (show_messages_run (greeted (messages_of w)) w1) as (evs & Hshow).
  unfold script, interaction, bind, get_messages, get_user_data.
  rewrite Hstart, Hmsgs, Hshow. simpl. by rewrite Hselected.
Qed.

Lemma chat_entry_session w :
  exists w1 evs,
    startup w = (Ok tt, w1) /\
    ss_messages w1 = Some (greeted (messages_of w)) /\
    show_messages (greeted (messages_of w)) w1 = (Ok tt, add_events w1 evs) /\
    chat_entry w = add_events w1 evs.
Proof.
  destruct (startup_session w) as (w1 & Hstart & Hmsgs & _).
  destruct (show_messages_run (greeted (messages_of w)) w1) as (evs & Hshow).
  exists w1, evs. split_and!; try done.
  unfold chat_entry, bind, get_messages. by rewrite Hstart, Hmsgs, Hshow.
Qed.

(** C9.  When the lookup of a submitted username yields [None], the chat
    handler ends with no user selected, whoever was selected before; and
    so does the whole run, rerun included. *)
Theorem not_found_clears_selection prompt w :
  (forall msgs,
     ss_messages w = Some msgs ->
     fst (fetch_gitlab_user prompt (searching prompt w)) = Ok JNull ->
     exists w',
       handle_prompt prompt w = (Raised RerunException, w') /\
       ss_user_data w' = Some JNull) /\
  (prompt <> EmptyString ->
   fst (fetch_gitlab_user prompt (searching prompt (chat_entry w))) = Ok JNull ->
   ss_user_data (snd (run (Submit prompt) w)) = Some JNull).
Proof.
  split.
  - intros msgs Hmsgs Hlookup.
    destruct (handle_prompt_not_found prompt w msgs Hmsgs Hlookup)
      as (w' & Hrun & Hselected & _).
    eauto.
  - intros Hprompt Hlookup.
    destruct prompt as [| c rest]; [done |].
    destruct (chat_entry_session w) as (w1 & evs & Hstart & Hmsgs & Hshow & Hentry).
    rewrite Hentry in Hlookup.
    destruct (handle_prompt_not_found (String c rest) (add_events w1 evs)
                (greeted (messages_of w)) Hmsgs Hlookup)
      as (w' & Hrun & Hselected & _).
    unfold run, script, interaction, bind, get_messages.
    rewrite Hstart, Hmsgs, Hshow, Hrun.
    by apply script_idle.
Qed.

(** *** The grid of language charts *)

Lemma get_project_languages_run project_id w :
  get_project_languages project_id w
  = (Ok (languages_of_reply (net (log w) (languages_url project_id) headers)),
     add_events w [EvGet (languages_url project_id) headers
                     (net (log w) (languages_url project_id) headers)]).
Proof.
  unfold get_project_languages, try_except_request, bind, requests_get,
    raise_for_status, response_json, languages_of_reply.
  destruct (net _ _ _) as [e | [status [v |]]]; simpl; try done;
    by destruct (is_http_error status).
Qed.

Lemma column_of_index col_idx :
  (col_idx < 3)%nat -> [0; 1; 2]%nat !! col_idx = Some col_idx.
Proof. intros H. by destruct col_idx as [| [| [| ?]]]; [.. | lia]. Qed.


Lemma is_project_fields p :
  is_project p = true ->
  exists pid name stars forks,
    dict_get "id" p = Some pid /\ dict_get "name" p = Some name /\
    dict_get "star_count" p = Some stars /\ dict_get "forks_count" p = Some forks.
Proof.
  unfold is_project, dict_has. intros H.
  destruct (dict_get "id" p) as [pid |]; [| done].
  destruct (dict_get "name" p) as [name |]; [| done].
  destruct (dict_get "star_count" p) as [stars |]; [| done].
  destruct (dict_get "forks_count" p) as [forks |]; [| done].
  by exists pid, name, stars, forks.
Qed.

Lemma language_cell_trace project col_idx w :
  (col_idx < 3)%nat ->
  is_project project = true ->
  answers_languages project ->
  exists evs,
    language_cell project col_idx w = (Ok tt, add_events w evs) /\
    cell_trace project evs.
Proof.
  intros Hcol Hproject Hanswers.
  destruct (is_project_fields _ Hproject) as (pid & name & _ & _ & Hid & Hname & _).
  unfold language_cell, bind, emit, py_getitem.
  rewrite (column_of_index _ Hcol), Hname, Hid. simpl.
  rewrite get_project_languages_run.
  match goal with
  | |- context [net ?h (languages_url pid) headers] =>
      pose proof (Hanswers h pid Hid) as Hok;
      destruct (net h (languages_url pid) headers) as [e | [status [v |]]]
  end; simpl in *.
  - rewrite !add_events_app. eexists. split; [reflexivity |].
    by apply (cell_fallback project col_idx name pid (GetRaised e)).
  - destruct (is_http_error status) eqn:Hstatus; simpl in *.
    + rewrite !add_events_app. eexists. split; [reflexivity |].
      apply (cell_fallback project col_idx name pid
               (GetResponse (mkResponse status (Some v)))); try done.
      simpl. by rewrite Hstatus.
    + destruct v as [| | | | | | [| [k v] items]]; try done; simpl.
      * rewrite !add_events_app. eexists. split; [reflexivity |].
        apply (cell_fallback project col_idx name pid
                 (GetResponse (mkResponse status (Some (JObj []))))); try done.
        simpl. by rewrite Hstatus.
      * rewrite !add_events_app.
        eexists. split; [reflexivity |].
        by apply (cell_chart project col_idx name pid status k v items).
  - assert (Hnone : (if is_http_error status then JObj [] else JObj []) = JObj [])
      by (by destruct (is_http_error status)).
    rewrite Hnone. simpl. rewrite !add_events_app.
    eexists. split; [reflexivity |].
    apply (cell_fallback project col_idx name pid
             (GetResponse (mkResponse status None))); done.
Qed.

Lemma language_cells_trace projects : forall col_idx w,
  (col_idx < 3)%nat ->
  Forall (fun p => is_project p = true) projects ->
  Forall answers_languages projects ->
  exists cells,
    language_cells projects col_idx w = (Ok tt, add_events w (concat cells)) /\
    Forall2 cell_trace projects cells.
Proof.
  induction projects as [| project others IH]; intros col_idx w Hcol Hprojects Hanswers.
  - exists []. simpl. by rewrite add_events_nil.
  - apply Forall_cons in Hprojects as [Hproject Hprojects].
    apply Forall_cons in Hanswers as [Hanswer Hanswers].
    destruct (language_cell_trace project col_idx w Hcol Hproject Hanswer)
      as (evs & Hcell & Htrace).
    assert (Hnext : ((col_idx + 1) mod 3 < 3)%nat) by (apply Nat.mod_upper_bound; lia).
    destruct (IH ((col_idx + 1) mod 3)%nat (add_events w evs) Hnext Hprojects Hanswers)
      as (cells & Hcells & Htraces).
    exists (evs :: cells). split; [| by constructor].
    cbn [language_cells concat]. unfold bind.
    rewrite Hcell, Hcells. by rewrite add_events_app.
Qed.

Lemma cell_trace_fetch p evs :
  cell_trace p evs -> fetched_urls evs = [project_languages_url p].
Proof.
  unfold project_languages_url.
  destruct 1 as [col name pid status k v items Hname Hid Hstatus
                | col name pid reply Hname Hid Hreply]; by rewrite Hid.
Qed.

Lemma fetched_urls_app evs1 evs2 :
  fetched_urls (evs1 ++ evs2) = fetched_urls evs1 ++ fetched_urls evs2.
Proof. apply omap_app. Qed.

Lemma cells_fetches projects cells :
  Forall2 cell_trace projects cells ->
  fetched_urls (concat cells) = map project_languages_url projects.
Proof.
  induction 1 as [| p evs projects cells Htrace _ IH]; [done |].
  cbn [concat map].
  by rewrite fetched_urls_app, IH, (cell_trace_fetch p evs Htrace).
Qed.

(** *** The bar chart *)

Lemma dict_has_cons k k' v d :
  dict_has k ((k', v) :: d) = String.eqb k k' || dict_has k d.
Proof. unfold dict_has; simpl. by destruct (String.eqb k k'). Qed.

Lemma union_step_keys k r : forall seen,
  existsb (String.eqb k)
    (fold_left (fun acc kv => if existsb (String.eqb (fst kv)) acc then acc
                              else acc ++ [fst kv]) r seen)
  = existsb (String.eqb k) seen || dict_has k r.
Proof.
  induction r as [| [k' v] r IH]; intros seen; simpl.
  - unfold dict_has; simpl. by rewrite orb_false_r.
  - rewrite IH, dict_has_cons. simpl.
    destruct (existsb (String.eqb k') seen) eqn:Hseen.
    + destruct (String.eqb_spec k k') as [-> |]; [| done].
      by rewrite Hseen.
    + rewrite existsb_app. simpl. by rewrite orb_false_r, orb_assoc.
Qed.

Lemma union_keys_has k records : forall seen,
  existsb (String.eqb k) (union_keys seen records)
  = existsb (String.eqb k) seen || existsb (dict_has k) records.
Proof.
  induction records as [| r records IH]; intros seen; simpl.
  - by rewrite orb_false_r.
  - by rewrite IH, union_step_keys, orb_assoc.
Qed.

Lemma column_get_map k (series : string -> list cell) keys :
  column_get k (map (fun key => (key, series key)) keys)
  = if existsb (String.eqb k) keys then Some (series k) else None.
Proof.
  induction keys as [| key keys IH]; simpl; [done |].
  destruct (String.eqb_spec k key) as [-> |]; [done |]. apply IH.
Qed.

Lemma column_get_frame k records :
  column_get k (df_columns (frame_of_records records))
  = if existsb (dict_has k) records then Some (map (dict_get k) records) else None.
Proof.
  unfold frame_of_records; simpl.
  rewrite (column_get_map k (fun key => map (dict_get key) records)).
  by rewrite union_keys_has.
Qed.

Lemma select_columns_three df a b c sa sb sc w :
  column_get a (df_columns df) = Some sa ->
  column_get b (df_columns df) = Some sb ->
  column_get c (df_columns df) = Some sc ->
  select_columns [a; b; c] df w
  = (Ok {| df_index := df_index df; df_columns := [(a, sa); (b, sb); (c, sc)] |}, w).
Proof.
  intros Ha Hb Hc. unfold select_columns; simpl. by rewrite Ha, Hb, Hc.
Qed.

Lemma projects_have_field k records :
  records <> [] ->
  Forall (fun p => dict_has k p = true) records ->
  existsb (dict_has k) records = true.
Proof.
  destruct records as [| p records]; [done |].
  intros _ Hall. apply Forall_cons in Hall as [Hp _]. simpl. by rewrite Hp.
Qed.

Lemma stats_frame_value records w :
  records <> [] ->
  Forall (fun p => is_project p = true) records ->
  stats_frame records w
  = (Ok {| df_index := map (dict_get "name") records;
           df_columns :=
             [("star_count", map (dict_get "star_count") records);
              ("forks_count", map (dict_get "forks_count") records)]
             ++ (if existsb (dict_has "statistics") records
                 then [("commit_count",
                        map (fun p => commit_count_of (dict_get "statistics" p))
                          records)]
                 else []) |}, w).
Proof.
  intros Hne Hall.
  assert (Hfield : forall k, In k ["name"; "star_count"; "forks_count"] ->
            column_get k (df_columns (frame_of_records records))
            = Some (map (dict_get k) records)).
  { intros k Hk. rewrite column_get_frame, projects_have_field; try done.
    eapply Forall_impl; [exact Hall |]. intros p Hp. simpl in Hk.
    unfold is_project in Hp. apply andb_true_iff in Hp as [Hp Hforks].
    apply andb_true_iff in Hp as [Hp Hstars].
    apply andb_true_iff in Hp as [_ Hname].
    destruct Hk as [<- | [<- | [<- | []]]]; done. }
  unfold stats_frame, bind.
  rewrite (select_columns_three _ _ _ _ _ _ _ w
             (Hfield "name" ltac:(simpl; auto))
             (Hfield "star_count" ltac:(simpl; auto))
             (Hfield "forks_count" ltac:(simpl; auto))).
  rewrite column_get_frame.
  destruct (existsb (dict_has "statistics") records); [| done].
  unfold set_index; simpl. by rewrite map_map.
Qed.

Lemma no_bar_charts evs : forallb no_bar_chart evs = true -> bar_charts evs = [].
Proof.
  induction evs as [| ev evs IH]; [done |]. simpl.
  intros [Hev Hevs]%andb_true_iff. unfold bar_charts in *. simpl.
  destruct ev; try done; by apply IH.
Qed.

Lemma display_project_visuals_run records w :
  records <> [] ->
  Forall (fun p => is_project p = true) records ->
  exists chart,
    (forall w', stats_frame records w' = (Ok chart, w')) /\
    display_project_visuals (JArr (JObj <$> records)) w
    = language_cells (take 9 records) 0
        (add_events w
           [EvSubheader "Project Visualizations";
            EvMarkdown "#### Project Popularity & Activity";
            EvBarChart chart;
            EvMarkdown "#### Language Breakdown per Project (Matplotlib)";
            EvInfo "Fetching language data for each project... this may take a moment.";
            EvColumns [1; 1; 1]]).
Proof.
  intros Hne Hall. eexists. split.
  { intros w'. by apply stats_frame_value. }
  assert (Htruthy : py_truthy (JArr (JObj <$> records)) = true)
    by (by destruct records).
  assert (Hrecords : as_records (JArr (JObj <$> records)) = Some records)
    by (by apply mapM_fmap_Some).
  unfold display_project_visuals, bind, emit.
  rewrite Htruthy, Hrecords. cbn [negb from_option ret].
  rewrite stats_frame_value by done.
  by rewrite !add_events_app.
Qed.

Lemma display_project_visuals_cells records w :
  records <> [] ->
  Forall (fun p => is_project p = true) records ->
  Forall answers_languages (take 9 records) ->
  exists chart cells,
    display_project_visuals (JArr (JObj <$> records)) w
    = (Ok tt,
       add_events w
         ([EvSubheader "Project Visualizations";
           EvMarkdown "#### Project Popularity & Activity";
           EvBarChart chart;
           EvMarkdown "#### Language Breakdown per Project (Matplotlib)";
           EvInfo "Fetching language data for each project... this may take a moment.";
           EvColumns [1; 1; 1]] ++ concat cells)) /\
    Forall2 cell_trace (take 9 records) cells /\
    df_index chart = map (dict_get "name") records.
Proof.
  intros Hne Hall Hanswers.
  destruct (display_project_visuals_run records w Hne Hall) as (chart & Hchart & ->).
  destruct (language_cells_trace (take 9 records) 0%nat
              (add_events w
                 [EvSubheader "Project Visualizations";
                  EvMarkdown "#### Project Popularity & Activity";
                  EvBarChart chart;
                  EvMarkdown "#### Language Breakdown per Project (Matplotlib)";
                  EvInfo "Fetching language data for each project... this may take a moment.";
                  EvColumns [1; 1; 1]]))
    as (cells & -> & Htraces); [lia | by apply Forall_take | done |].
  exists chart, cells.
  specialize (Hchart w). rewrite stats_frame_value in Hchart by done.
  injection Hchart as <-.
  split_and!; [by rewrite add_events_app | done | done].
Qed.

Lemma typed_project_is_project p : typed_project p = true -> is_project p = true.
Proof.
  unfold typed_project, is_project, dict_has, is_count.
  destruct (dict_get "id" p) as [[] |]; try done.
  destruct (dict_get "name" p) as [[] |]; try done; simpl;
    try (by rewrite ?andb_false_r).
  destruct (dict_get "star_count" p) as [[] |]; try done; simpl;
    try (by rewrite ?andb_false_r);
  destruct (dict_get "forks_count" p) as [[] |]; try done; simpl;
    by rewrite ?andb_false_r.
Qed.

Lemma breakdown_reply_ok r : breakdown_reply r = true -> languages_reply_ok r = true.
Proof.
  destruct r as [e | [status [v |]]]; simpl; try done.
  destruct (is_http_error status); simpl; [done |]. by destruct v.
Qed.

(** C3, as the code has it.  Given a list of [n] projects of the data
    model and a languages endpoint that fails or answers with a breakdown
    of percentages, the first [min n 9] projects get, in input order, one
    turn of the loop each: one request for the languages of the project and
    then one drawing, the pie chart of the breakdown or, when the reply
    gives nothing to plot, the text fallback.  The bar chart drawn before
    has a row for each of the [n] projects. *)
Theorem capped_language_cells records w :
  records <> [] ->
  Forall (fun p => typed_project p = true) records ->
  Forall serves_breakdowns (take 9 records) ->
  exists chart cells,
    display_project_visuals (JArr (JObj <$> records)) w
    = (Ok tt,
       add_events w
         ([EvSubheader "Project Visualizations";
           EvMarkdown "#### Project Popularity & Activity";
           EvBarChart chart;
           EvMarkdown "#### Language Breakdown per Project (Matplotlib)";
           EvInfo "Fetching language data for each project... this may take a moment.";
           EvColumns [1; 1; 1]] ++ concat cells)) /\
    Forall2 cell_trace (take 9 records) cells /\
    length cells = Nat.min (length records) 9 /\
    fetched_urls (concat cells) = map project_languages_url (take 9 records) /\
    df_index chart = map (dict_get "name") records /\
    length (df_index chart) = length records.
Proof.
  intros Hne Htyped Hserves.
  assert (Hall : Forall (fun p => is_project p = true) records).
  { eapply Forall_impl; [exact Htyped |]. apply typed_project_is_project. }
  assert (Hanswers : Forall answers_languages (take 9 records)).
  { eapply Forall_impl; [exact Hserves |].
    intros p Hp h pid Hid. by apply breakdown_reply_ok, Hp. }
  destruct (display_project_visuals_cells records w Hne Hall Hanswers)
    as (chart & cells & Hrun & Htraces & Hindex).
  exists chart, cells. split_and!; try done.
  - apply Forall2_length in Htraces. rewrite <- Htraces, length_take. lia.
  - by apply cells_fetches.
  - by rewrite Hindex, length_map.
Qed.



(** C6, as the code has it.  The bar chart has a row per project, carries
    the star and fork counts of every project, and, when at least one
    project has a [statistics] field, a third series of commit counts in
    which a project without [statistics], or whose [statistics] is not a
    dict, counts 0.  When no project has the field the chart has the two
    series only. *)
Theorem bar_chart_series records w :
  records <> [] ->
  Forall (fun p => is_project p = true) records ->
  exists chart evs,
    log (snd (display_project_visuals (JArr (JObj <$> records)) w)) = log w ++ evs /\
    bar_charts evs = [chart] /\
    df_index chart = map (dict_get "name") records /\
    column_get "star_count" (df_columns chart)
      = Some (map (dict_get "star_count") records) /\
    column_get "forks_count" (df_columns chart)
      = Some (map (dict_get "forks_count") records) /\
    (existsb (dict_has "statistics") records = true ->
       series_names chart = ["star_count"; "forks_count"; "commit_count"] /\
       column_get "commit_count" (df_columns chart)
         = Some (map (fun p => commit_count_of (dict_get "statistics" p)) records)) /\
    (existsb (dict_has "statistics") records = false ->
       series_names chart = ["star_count"; "forks_count"]) /\
    (forall p, dict_get "statistics" p = None ->
       commit_count_of (dict_get "statistics" p) = Some (JInt 0)) /\
    (forall p v, dict_get "statistics" p = Some v -> is_object v = false ->
       commit_count_of (dict_get "statistics" p) = Some (JInt 0)).
Proof.
  intros Hne Hall.
  destruct (display_project_visuals_run records w Hne Hall) as (chart & Hchart & ->).
  match goal with
  | |- context [language_cells ?ps ?i ?w1] =>
      destruct (behaves_language_cells no_bar_chart ps i
                  ltac:(by intros ev; unfold no_bar_chart; intros ->) w1)
        as (evs & _ & Hlog & Hnone & _)
  end.
  specialize (Hchart w). rewrite stats_frame_value in Hchart by done.
  injection Hchart as <-.
  eexists _, _. split_and!.
  - rewrite Hlog. simpl. by rewrite <- app_assoc.
  - unfold bar_charts. rewrite omap_app. fold (bar_charts evs).
    by rewrite (no_bar_charts _ Hnone).
  - done.
  - done.
  - done.
  - intros ->. done.
  - intros ->. done.
  - by intros p ->.
  - intros p v -> Hv. by destruct v.
Qed.

(** ** Further properties *)

(** *** The HTTP helpers, case by case *)

Lemma fetch_gitlab_user_run username w :
  fetch_gitlab_user username w
  = let reply := net (log w) (users_url username) headers in
    match request_failure reply, reply_body reply with
    | Some e, _ =>
        (Ok JNull,
         add_events w [EvGet (users_url username) headers reply;
                       EvError "API Request Failed: " e])
    | None, Some users =>
        (fst ((if py_truthy users then py_index0 users else ret JNull) w),
         add_events w [EvGet (users_url username) headers reply])
    | None, None => (Ok JNull, add_events w [EvGet (users_url username) headers reply])
    end.
Proof.
  unfold fetch_gitlab_user, try_except_request, bind, requests_get,
    raise_for_status, response_json, request_failure, reply_body, emit.
  destruct (net _ _ _) as [e | [status [v |]]]; simpl.
  - by rewrite add_events_app.
  - destruct (is_http_error status); simpl; [by rewrite add_events_app |].
    destruct (py_truthy v); [| done].
    unfold py_index0.
    destruct v as [| | | | s | items |]; simpl; try done.
    + by destruct (first_char s).
    + by destruct items.
  - destruct (is_http_error status); simpl; by rewrite add_events_app.
Qed.

(** X1.  When the lookup fails (the transport raises, the status is an
    error status, or the body is not JSON) [fetch_gitlab_user] returns
    [None] and shows the failure once, after its one request. *)
Theorem fetch_gitlab_user_failure username w e :
  request_failure (net (log w) (users_url username) headers) = Some e ->
  fetch_gitlab_user username w
  = (Ok JNull,
     add_events w [EvGet (users_url username) headers
                     (net (log w) (users_url username) headers);
                   EvError "API Request Failed: " e]).
Proof.
  intros Hfail. rewrite fetch_gitlab_user_run. simpl. by rewrite Hfail.
Qed.

Lemma reply_body_no_failure r v : reply_body r = Some v -> request_failure r = None.
Proof.
  destruct r as [e | [status body]]; simpl; [done |].
  destruct (is_http_error status); [done |]. by intros ->.
Qed.

(** X2.  When the lookup gets an empty answer (any falsy body: [[]],
    [null], [{}], ...) [fetch_gitlab_user] returns [None] without showing
    an error: the request is all it leaves. *)
Theorem fetch_gitlab_user_empty_is_silent username w v :
  reply_body (net (log w) (users_url username) headers) = Some v ->
  py_truthy v = false ->
  exists evs,
    fetch_gitlab_user username w = (Ok JNull, add_events w evs) /\
    fetched_urls evs = [users_url username] /\
    errors evs = [].
Proof.
  intros Hbody Hfalsy. rewrite fetch_gitlab_user_run. simpl.
  rewrite (reply_body_no_failure _ _ Hbody), Hbody, Hfalsy.
  eexists. split; [reflexivity |]. done.
Qed.

(** X3.  Only [RequestException] is caught: a body that is a non-empty
    object instead of an array makes [fetch_gitlab_user] raise
    [KeyError(0)], and a body that is a non-zero number or [true] makes it
    raise [TypeError]; no error message is shown. *)
Theorem fetch_gitlab_user_wrong_shape_raises username w v :
  reply_body (net (log w) (users_url username) headers) = Some v ->
  py_truthy v = true ->
  exists evs,
    snd (fetch_gitlab_user username w) = add_events w evs /\
    errors evs = [] /\
    (is_object v = true ->
       fst (fetch_gitlab_user username w) = Raised (KeyError (JInt 0))) /\
    ((exists z, v = JInt z) \/ (exists q, v = JFloat q) \/ v = JBool true ->
       fst (fetch_gitlab_user username w) = Raised TypeError).
Proof.
  intros Hbody Htruthy. rewrite fetch_gitlab_user_run. simpl.
  rewrite (reply_body_no_failure _ _ Hbody), Hbody, Htruthy. simpl.
  eexists. split_and!; [reflexivity | done | |].
  - by destruct v.
  - intros [[z ->] | [[q ->] | ->]]; done.
Qed.

Lemma fetch_user_projects_run user_id w :
  fetch_user_projects user_id w
  = (Ok (default (JArr []) (reply_body (net (log w) (projects_url user_id) headers))),
     add_events w [EvGet (projects_url user_id) headers
                     (net (log w) (projects_url user_id) headers)]).
Proof.
  unfold fetch_user_projects, try_except_request, bind, requests_get,
    raise_for_status, response_json, reply_body.
  destruct (net _ _ _) as [e | [status [v |]]]; simpl; try done;
    by destruct (is_http_error status).
Qed.

Lemma languages_of_reply_body r :
  languages_of_reply r = default (JObj []) (reply_body r).
Proof.
  destruct r as [e | [status [v |]]]; simpl; try done;
    by destruct (is_http_error status).
Qed.

(** X4.  No helper retries or shows anything on its own account: a call of
    [fetch_user_projects] or [get_project_languages] leaves exactly its one
    request in the log and the session as it was, and a call of
    [fetch_gitlab_user] sends exactly one request and leaves the session as
    it was. *)
Theorem helpers_send_one_request v username w :
  snd (fetch_user_projects v w)
    = add_events w [EvGet (projects_url v) headers
                      (net (log w) (projects_url v) headers)] /\
  snd (get_project_languages v w)
    = add_events w [EvGet (languages_url v) headers
                      (net (log w) (languages_url v) headers)] /\
  exists evs,
    snd (fetch_gitlab_user username w) = add_events w evs /\
    fetched_urls evs = [users_url username].
Proof.
  split_and!.
  - by rewrite fetch_user_projects_run.
  - by rewrite get_project_languages_run.
  - rewrite fetch_gitlab_user_run. simpl.
    destruct (request_failure _); [by eexists |].
    destruct (reply_body _); by eexists.
Qed.

(** X5.  A reply that passes [raise_for_status] and parses is handed back
    unchanged by [fetch_user_projects] and [get_project_languages],
    whatever its shape; a reply that does not parse gives the empty list
    and the empty dict, like a failed call. *)
Theorem helpers_hand_back_the_body v w :
  (forall parsed,
     reply_body (net (log w) (projects_url v) headers) = Some parsed ->
     fst (fetch_user_projects v w) = Ok parsed) /\
  (forall parsed,
     reply_body (net (log w) (languages_url v) headers) = Some parsed ->
     fst (get_project_languages v w) = Ok parsed) /\
  (forall e,
     request_failure (net (log w) (projects_url v) headers) = Some e ->
     fst (fetch_user_projects v w) = Ok (JArr [])) /\
  (forall e,
     request_failure (net (log w) (languages_url v) headers) = Some e ->
     fst (get_project_languages v w) = Ok (JObj [])).
Proof.
  assert (Hnone : forall r e, request_failure r = Some e -> reply_body r = None).
  { intros [e' | [status [parsed |]]] e; simpl; try done;
      by destruct (is_http_error status). }
  rewrite fetch_user_projects_run, get_project_languages_run,
    languages_of_reply_body. simpl.
  split_and!.
  - by intros parsed ->.
  - by intros parsed ->.
  - intros e He. by rewrite (Hnone _ _ He).
  - intros e He. by rewrite (Hnone _ _ He).
Qed.

(** *** The profile view, case by case *)

Lemma static_ret P {A} (a : A) : static P (ret a).
Proof. exists (Ok a), []. split; [done |]. intros w. by rewrite add_events_nil. Qed.

Lemma static_raise P {A} e : static P (@raise A e).
Proof. exists (Raised e), []. split; [done |]. intros w. by rewrite add_events_nil. Qed.

Lemma static_emit P ev : P ev = true -> static P (emit ev).
Proof. intros Hev. exists (Ok tt), [ev]. split; [| done]. simpl. by rewrite Hev. Qed.

Lemma static_from_option P {A} e (o : option A) : static P (from_option e o).
Proof. destruct o; [apply static_ret | apply static_raise]. Qed.

Lemma static_bind P {A B} (m : M A) (k : A -> M B) :
  static P m -> (forall a, static P (k a)) -> static P (bind m k).
Proof.
  intros ([a | e] & evs1 & HP1 & Hm) Hk.
  - destruct (Hk a) as (r & evs2 & HP2 & Hka).
    exists r, (evs1 ++ evs2). split; [by rewrite forallb_app, HP1, HP2 |].
    intros w. unfold bind. by rewrite Hm, Hka, add_events_app.
  - exists (Raised e), evs1. split; [done |].
    intros w. unfold bind. by rewrite Hm.
Qed.

Lemma static_py_get P v k default : static P (py_get v k default).
Proof. destruct v; first [apply static_ret | apply static_raise]. Qed.

Lemma static_py_getitem P v k : static P (py_getitem v k).
Proof. destruct v; first [apply static_from_option | apply static_raise]. Qed.

Lemma static_py_str_split P v c : static P (py_str_split v c).
Proof. destruct v; first [apply static_ret | apply static_raise]. Qed.

Lemma no_requests evs : forallb no_request evs = true -> fetched_urls evs = [].
Proof.
  induction evs as [| ev evs IH]; [done |]. simpl.
  intros [Hev Hevs]%andb_true_iff. unfold fetched_urls in *. simpl.
  destruct ev; try done; by apply IH.
Qed.

Lemma static_display_full_profile user_record :
  static no_request (display_full_profile user_record).
Proof.
  unfold display_full_profile.
  repeat first
    [ apply static_ret
    | apply static_emit; reflexivity
    | apply static_from_option
    | apply static_py_get
    | apply static_py_getitem
    | apply static_py_str_split
    | match goal with
      | |- static _ (match ?x with _ => _ end) => destruct x
      end
    | apply static_bind; [| intros ?] ].
Qed.

(** X6.  The profile view is a function of the record alone: it sends no
    request, leaves the session as it is, and draws the same events and
    ends the same way in every world, so that showing a record twice draws
    the same fields twice. *)
Theorem display_full_profile_same_everywhere user_record :
  exists r evs,
    fetched_urls evs = [] /\
    (forall w, display_full_profile user_record w = (r, add_events w evs)) /\
    (forall w,
       snd (display_full_profile user_record
              (snd (display_full_profile user_record w)))
       = add_events w (evs ++ evs)).
Proof.
  destruct (static_display_full_profile user_record) as (r & evs & Hnone & Hrun).
  exists r, evs. split_and!; [by apply no_requests | done |].
  intros w. rewrite !Hrun. simpl. by rewrite add_events_app.
Qed.


(** X8.  [st.image] is called, once, with the value under [avatar_url] and
    150 as the width, exactly when the record has a truthy [avatar_url];
    for a record without the key, or with [null] or an empty string under
    it, [st.image] is not called.  What Streamlit then makes of the value
    is no part of the statement. *)
Theorem display_full_profile_avatar d w :
  exists evs,
    snd (display_full_profile (JObj d) w) = add_events w evs /\
    images evs
    = match dict_get "avatar_url" d with
      | Some avatar => if py_truthy avatar then [(avatar, 150)] else []
      | None => []
      end.
Proof.
  unfold display_full_profile, bind, emit, py_get, py_getitem, ret; simpl.
  assert (Hcases :
    (exists first others text,
       match dict_get "created_at" d with Some x => x | None => JStr "N/A" end
         = JStr text /\ py_split "T" text = first :: others) \/
    (forall w', py_str_split
                  match dict_get "created_at" d with Some x => x | None => JStr "N/A" end
                  "T" w' = (Raised AttributeError, w'))).
  { destruct (dict_get "created_at" d) as [created_at |].
    - destruct created_at; try (by right).
      destruct (py_split_head "T" s) as (first & others & Hsplit & _).
      left. by exists first, others, s.
    - left. by exists "N/A", [], "N/A". }
  destruct Hcases as [(first & others & text & -> & Hsplit) | Hraise].
  - simpl. rewrite Hsplit. simpl.
    destruct (dict_get "avatar_url" d) as [avatar |]; simpl;
      [destruct (py_truthy avatar); simpl |];
      rewrite !add_events_app; simpl; eexists; (split; [reflexivity |]);
      reflexivity.
  - destruct (dict_get "avatar_url" d) as [avatar |]; simpl;
      [destruct (py_truthy avatar); simpl |];
      rewrite Hraise, !add_events_app; simpl; eexists; (split; [reflexivity |]);
      reflexivity.
Qed.

(** *** The project view, whatever the input *)

Lemma figures_released_app evs1 evs2 :
  figures_released evs1 -> figures_released evs2 -> figures_released (evs1 ++ evs2).
Proof.
  induction 1; intros Hsecond; simpl; [done | |].
  - apply released_pair. auto.
  - apply released_skip; auto.
Qed.

Ltac released :=
  repeat first
    [ apply released_nil
    | apply released_pair
    | apply released_skip; [reflexivity |] ].

Lemma language_cell_shape project col_idx w :
  (col_idx < 3)%nat ->
  exists r evs,
    language_cell project col_idx w = (r, add_events w evs) /\
    columns_entered evs = [col_idx] /\
    figures_released evs /\
    (length (fetched_urls evs) <= 1)%nat /\
    bar_charts evs = [].
Proof.
  intros Hcol.
  unfold language_cell, bind, emit, py_getitem.
  rewrite (column_of_index _ Hcol). simpl.
  destruct (dict_get "name" project) as [name |]; simpl;
    [| eexists _, _; split; [reflexivity |]; split_and!;
       [done | released | simpl; lia | done]].
  destruct (dict_get "id" project) as [pid |]; simpl;
    [| rewrite !add_events_app; eexists _, _; split; [reflexivity |]; split_and!;
       [done | released | simpl; lia | done]].
  rewrite get_project_languages_run. simpl.
  destruct (py_truthy (languages_of_reply _)); simpl.
  - destruct (languages_of_reply _); simpl;
      rewrite !add_events_app; eexists _, _; (split; [reflexivity |]); split_and!;
        first [done | released | simpl; lia].
  - rewrite !add_events_app; eexists _, _; (split; [reflexivity |]); split_and!;
      first [done | released | simpl; lia].
Qed.

Lemma columns_entered_app evs1 evs2 :
  columns_entered (evs1 ++ evs2) = columns_entered evs1 ++ columns_entered evs2.
Proof. apply omap_app. Qed.

Lemma bar_charts_app evs1 evs2 :
  bar_charts (evs1 ++ evs2) = bar_charts evs1 ++ bar_charts evs2.
Proof. apply omap_app. Qed.

Lemma grid_columns col_idx k :
  (col_idx < 3)%nat ->
  col_idx :: map (fun i => (((col_idx + 1) mod 3) + i) mod 3)%nat (seq 0 k)
  = map (fun i => ((col_idx + i) mod 3)%nat) (seq 0 (S k)).
Proof.
  intros Hcol. cbn [seq map].
  rewrite Nat.add_0_r, (Nat.mod_small col_idx 3) by done. f_equal.
  rewrite <- seq_shift, map_map. apply map_ext. intros i.
  rewrite Nat.Div0.add_mod_idemp_l. f_equal. lia.
Qed.

Lemma language_cells_shape projects : forall col_idx w,
  (col_idx < 3)%nat ->
  exists r evs k,
    language_cells projects col_idx w = (r, add_events w evs) /\
    (k <= length projects)%nat /\
    (r = Ok tt -> k = length projects) /\
    columns_entered evs = map (fun i => ((col_idx + i) mod 3)%nat) (seq 0 k) /\
    figures_released evs /\
    (length (fetched_urls evs) <= k)%nat /\
    bar_charts evs = [].
Proof.
  induction projects as [| project others IH]; intros col_idx w Hcol.
  - exists (Ok tt), [], 0%nat. simpl. rewrite add_events_nil.
    split_and!; try done. constructor.
  - destruct (language_cell_shape project col_idx w Hcol)
      as (r1 & evs1 & Hcell & Hcols1 & Hfigs1 & Hurls1 & Hbars1).
    cbn [language_cells]. unfold bind. rewrite Hcell.
    destruct r1 as [[] | e].
    + assert (Hnext : ((col_idx + 1) mod 3 < 3)%nat)
        by (apply Nat.mod_upper_bound; lia).
      destruct (IH ((col_idx + 1) mod 3)%nat (add_events w evs1) Hnext)
        as (r & evs2 & k & -> & Hk & Hdone & Hcols2 & Hfigs2 & Hurls2 & Hbars2).
      exists r, (evs1 ++ evs2), (S k). rewrite add_events_app.
      split_and!; try done.
      * simpl. lia.
      * intros Hr. simpl. by rewrite (Hdone Hr).
      * rewrite columns_entered_app, Hcols1, Hcols2. by apply grid_columns.
      * by apply figures_released_app.
      * rewrite fetched_urls_app, length_app. lia.
      * by rewrite bar_charts_app, Hbars1, Hbars2.
    + exists (Raised e), evs1, 1%nat.
      split_and!; try done.
      * simpl. lia.
      * rewrite Hcols1. cbn [seq map]. by rewrite Nat.add_0_r, Nat.mod_small.
Qed.

Lemma as_records_of_records records :
  as_records (JArr (JObj <$> records)) = Some records.
Proof. by apply mapM_fmap_Some. Qed.

Lemma display_project_visuals_shape projects w :
  exists r evs k,
    display_project_visuals projects w = (r, add_events w evs) /\
    (k <= 9)%nat /\
    columns_entered evs = map (fun i => (i mod 3)%nat) (seq 0 k) /\
    (forall records, projects = JArr (JObj <$> records) -> r = Ok tt ->
       k = Nat.min (length records) 9) /\
    figures_released evs /\
    (length (fetched_urls evs) <= 9)%nat /\
    (length (bar_charts evs) <= 1)%nat.
Proof.
  unfold display_project_visuals, bind, emit.
  destruct (py_truthy projects) eqn:Htruthy; simpl.
  - destruct (as_records projects) as [recs |] eqn:Hrecs; simpl.
    + match goal with
      | |- context [stats_frame recs ?w1] =>
          pose proof (stats_frame_pure recs w1) as Hpure;
          destruct (stats_frame recs w1) as [[chart | e] w2]
      end; simpl in Hpure; subst w2.
      * match goal with
        | |- context [language_cells ?ps ?i ?w1] =>
            destruct (language_cells_shape ps i w1 ltac:(lia))
              as (r & evs & k & -> & Hk & Hdone & Hcols & Hfigs & Hurls & Hbars)
        end.
        rewrite length_take in Hk, Hdone.
        eexists r, _, k. rewrite !add_events_app. split; [reflexivity |].
        split_and!.
        -- lia.
        -- simpl. exact Hcols.
        -- intros records -> Hr. rewrite as_records_of_records in Hrecs.
           injection Hrecs as <-. rewrite (Hdone Hr). lia.
        -- simpl. released. exact Hfigs.
        -- simpl. lia.
        -- rewrite !bar_charts_app, Hbars. simpl. lia.
      * rewrite !add_events_app. eexists (Raised e), _, 0%nat.
        split; [reflexivity |]. split_and!; try done; try (simpl; lia). released.
    + eexists (Raised ValueError), _, 0%nat.
      split; [reflexivity |]. split_and!; try done; try (simpl; lia). released.
  - rewrite !add_events_app. eexists (Ok tt), _, 0%nat.
    split; [reflexivity |]. split_and!; try done; try (simpl; lia); [| released].
    intros records -> _. by destruct records.
Qed.

(** X9.  The language cells fill a grid of three columns row by row: when
    the project view ends normally on a list of [n] records, the columns it
    entered are 0, 1, 2, 0, 1, 2, ... for the first [min n 9] records. *)
Theorem language_grid_is_row_major records w :
  fst (display_project_visuals (JArr (JObj <$> records)) w) = Ok tt ->
  exists evs,
    snd (display_project_visuals (JArr (JObj <$> records)) w) = add_events w evs /\
    columns_entered evs
    = map (fun i => (i mod 3)%nat) (seq 0 (Nat.min (length records) 9)).
Proof.
  intros Hok.
  destruct (display_project_visuals_shape (JArr (JObj <$> records)) w)
    as (r & evs & k & Hrun & _ & Hcols & Hdone & _).
  rewrite Hrun in *. simpl in Hok. exists evs. split; [done |].
  by rewrite Hcols, (Hdone records eq_refl Hok).
Qed.

(** X10.  Every figure the project view shows is closed by the very next
    step, whatever the input and the network, also in a call that ends by
    an exception. *)
Theorem figures_are_released projects w :
  exists evs,
    snd (display_project_visuals projects w) = add_events w evs /\
    figures_released evs.
Proof.
  destruct (display_project_visuals_shape projects w)
    as (r & evs & k & Hrun & _ & _ & _ & Hfigs & _).
  exists evs. by rewrite Hrun.
Qed.

(** X11.  One call of the project view sends at most nine requests and
    draws at most one bar chart, whatever the input and the network. *)
Theorem at_most_nine_requests projects w :
  exists evs,
    snd (display_project_visuals projects w) = add_events w evs /\
    (length (fetched_urls evs) <= 9)%nat /\
    (length (bar_charts evs) <= 1)%nat.
Proof.
  destruct (display_project_visuals_shape projects w)
    as (r & evs & k & Hrun & _ & _ & _ & _ & Hurls & Hbars).
  exists evs. by rewrite Hrun.
Qed.

Lemma stats_frame_cases records w :
  stats_frame records w
  = match missing_fields ["name"; "star_count"; "forks_count"] records with
    | [] =>
        (Ok {| df_index := map (dict_get "name") records;
               df_columns :=
                 [("star_count", map (dict_get "star_count") records);
                  ("forks_count", map (dict_get "forks_count") records)]
                 ++ (if existsb (dict_has "statistics") records
                     then [("commit_count",
                            map (fun p => commit_count_of (dict_get "statistics" p))
                              records)]
                     else []) |}, w)
    | missing => (Raised (KeyError (JArr (JStr <$> missing))), w)
    end.
Proof.
  pose proof (column_get_frame "name" records) as Hname.
  pose proof (column_get_frame "star_count" records) as Hstars.
  pose proof (column_get_frame "forks_count" records) as Hforks.
  pose proof (column_get_frame "statistics" records) as Hstats.
  unfold stats_frame, bind, select_columns, missing_fields, has_column, set_index.
  remember (frame_of_records records) as df eqn:Hdf. clear Hdf.
  simpl. rewrite Hname, Hstars, Hforks, Hstats.
  destruct (existsb (dict_has "name") records),
    (existsb (dict_has "star_count") records),
    (existsb (dict_has "forks_count") records); simpl; try done.
  destruct (existsb (dict_has "statistics") records); simpl; [| done].
  by rewrite map_map.
Qed.

(** X12.  When one of [name], [star_count], [forks_count] is a key of no
    record at all, the project view raises [KeyError] naming exactly the
    absent columns, after the two headings: no chart is drawn and no request
    is sent. *)
Theorem missing_column_raises records w missing :
  records <> [] ->
  missing_fields ["name"; "star_count"; "forks_count"] records = missing ->
  missing <> [] ->
  display_project_visuals (JArr (JObj <$> records)) w
  = (Raised (KeyError (JArr (JStr <$> missing))),
     add_events w [EvSubheader "Project Visualizations";
                   EvMarkdown "#### Project Popularity & Activity"]).
Proof.
  intros Hne Hmissing Hsome.
  unfold display_project_visuals, bind, emit.
  rewrite as_records_of_records.
  replace (py_truthy (JArr (JObj <$> records))) with true by (by destruct records).
  cbn [negb from_option ret].
  rewrite stats_frame_cases, Hmissing.
  destruct missing; [done |]. by rewrite !add_events_app.
Qed.

Lemma lookup_map {A B} (f : A -> B) (l : list A) i :
  map f l !! i = f <$> (l !! i).
Proof.
  revert i. induction l as [| x l IH]; intros [| i]; simpl; auto.
Qed.

(** X13.  It takes one record with the key for a column to exist: when
    each of [name], [star_count], [forks_count] is a key of some record,
    the bar chart is drawn with a row per record, and a record that lacks
    one of the keys gets the missing value NaN in that column, not an
    error. *)
Theorem partial_records_give_nan records w :
  missing_fields ["name"; "star_count"; "forks_count"] records = [] ->
  exists chart evs,
    snd (display_project_visuals (JArr (JObj <$> records)) w)
    = add_events w
        ([EvSubheader "Project Visualizations";
          EvMarkdown "#### Project Popularity & Activity";
          EvBarChart chart] ++ evs) /\
    bar_charts evs = [] /\
    length (df_index chart) = length records /\
    forall i p,
      records !! i = Some p ->
      df_index chart !! i = Some (dict_get "name" p) /\
      (exists stars,
         column_get "star_count" (df_columns chart) = Some stars /\
         stars !! i = Some (dict_get "star_count" p)) /\
      (exists forks,
         column_get "forks_count" (df_columns chart) = Some forks /\
         forks !! i = Some (dict_get "forks_count" p)).
Proof.
  intros Hnone.
  assert (Hne : records <> []) by (by intros ->).
  unfold display_project_visuals, bind, emit.
  rewrite as_records_of_records.
  replace (py_truthy (JArr (JObj <$> records))) with true by (by destruct records).
  cbn [negb from_option ret].
  rewrite stats_frame_cases, Hnone.
  match goal with
  | |- context [language_cells ?ps ?i ?w1] =>
      destruct (language_cells_shape ps i w1 ltac:(lia))
        as (r & evs & k & -> & _ & _ & _ & _ & _ & Hbars)
  end.
  eexists _, _. rewrite !add_events_app. simpl. split; [reflexivity |].
  split_and!.
  - exact Hbars.
  - cbn [df_index]. by rewrite length_map.
  - intros i p Hp. cbn [df_index df_columns]. split_and!.
    + by rewrite lookup_map, Hp.
    + eexists. split; [reflexivity |]. by rewrite lookup_map, Hp.
    + eexists. split; [reflexivity |]. by rewrite lookup_map, Hp.
Qed.

(** X14.  The loop needs [name] and [id] in every record it reaches: at a
    record without [name] it raises [KeyError] before the spinner, at a
    record without [id] after it, in both cases before any request for
    that record, and the records after it are not visited. *)
Theorem loop_stops_at_incomplete_record project others col_idx w :
  (col_idx < 3)%nat ->
  (dict_get "name" project = None ->
     language_cells (project :: others) col_idx w
     = (Raised (KeyError (JStr "name")), add_events w [EvEnterColumn col_idx])) /\
  (forall name,
     dict_get "name" project = Some name ->
     dict_get "id" project = None ->
     language_cells (project :: others) col_idx w
     = (Raised (KeyError (JStr "id")),
        add_events w [EvEnterColumn col_idx;
                      EvSpinner ("Getting languages for "
                                   +:+ format_value name +:+ "...")])).
Proof.
  intros Hcol.
  split; [intros Hname | intros name Hname Hid];
    cbn [language_cells]; unfold bind, language_cell, emit, py_getitem;
    rewrite (column_of_index _ Hcol); simpl; rewrite Hname; simpl.
  - done.
  - rewrite Hid. simpl. by rewrite add_events_app.
Qed.

(** X15.  A languages reply that parses to something truthy but not a dict
    (an array, say) is not caught: the loop raises [AttributeError] right
    after the request, draws nothing for the project and does not visit the
    records after it. *)
Theorem loop_stops_at_malformed_breakdown project others col_idx w name pid v :
  (col_idx < 3)%nat ->
  dict_get "name" project = Some name ->
  dict_get "id" project = Some pid ->
  reply_body
    (net (log w ++ [EvEnterColumn col_idx;
                    EvSpinner ("Getting languages for "
                                 +:+ format_value name +:+ "...")])
       (languages_url pid) headers) = Some v ->
  py_truthy v = true ->
  is_object v = false ->
  exists reply,
    language_cells (project :: others) col_idx w
    = (Raised AttributeError,
       add_events w [EvEnterColumn col_idx;
                     EvSpinner ("Getting languages for "
                                  +:+ format_value name +:+ "...");
                     EvGet (languages_url pid) headers reply]).
Proof.
  intros Hcol Hname Hid Hbody Htruthy Hshape.
  assert (Hcell : exists reply,
             language_cell project col_idx w
             = (Raised AttributeError,
                add_events w [EvEnterColumn col_idx;
                              EvSpinner ("Getting languages for "
                                           +:+ format_value name +:+ "...");
                              EvGet (languages_url pid) headers reply])).
  { unfold language_cell, bind, emit, py_getitem.
    rewrite (column_of_index _ Hcol), Hname, Hid. simpl.
    rewrite !add_events_app. simpl app.
    rewrite get_project_languages_run, languages_of_reply_body.
    simpl in *. rewrite Hbody. simpl. rewrite Htruthy.
    eexists. rewrite !add_events_app. simpl.
    by destruct v. }
  destruct Hcell as (reply & Hcell). exists reply.
  cbn [language_cells]. unfold bind. by rewrite Hcell.
Qed.

(** *** The script, run by run *)

Lemma startup_run w msgs selected :
  ss_messages w = Some msgs ->
  ss_user_data w = Some selected ->
  startup w
  = (Ok tt, {| ss_messages := Some (greeted msgs);
               ss_user_data := Some selected;
               log := log w ++ [EvTitle "🤖 GitLab Advanced Profiler"] |}).
Proof.
  destruct w as [stored chosen events]. simpl. intros -> ->.
  by destruct msgs.
Qed.

Lemma show_messages_events msgs w :
  show_messages msgs w = (Ok tt, add_events w (transcript_events msgs)).
Proof.
  revert w. induction msgs as [| m msgs IH]; intros w; simpl.
  - by rewrite add_events_nil.
  - unfold bind, emit. by rewrite IH, !add_events_app.
Qed.

Lemma script_no_action_run w msgs selected :
  ss_messages w = Some msgs ->
  ss_user_data w = Some selected ->
  script NoAction w
  = (Ok tt, {| ss_messages := Some (greeted msgs);
               ss_user_data := Some selected;
               log := log w ++ [EvTitle "🤖 GitLab Advanced Profiler"]
                        ++ transcript_events (greeted msgs)
                        ++ (if py_truthy selected then view_buttons else []) |}).
Proof.
  intros Hmsgs Hselected.
  unfold script, bind. rewrite (startup_run w msgs selected) by done.
  unfold interaction, bind, get_messages, get_user_data. simpl.
  rewrite show_messages_events. simpl.
  destruct (py_truthy selected); unfold emit, add_events; simpl;
    by rewrite <- ?app_assoc, ?app_nil_r.
Qed.

(** X16.  A run with no widget triggered redraws the page from the
    session and changes nothing in it: the title, every message of the
    transcript in order, and the two buttons exactly when a truthy user is
    selected. *)
Theorem idle_run_redraws_the_page w msgs selected :
  ss_messages w = Some msgs ->
  ss_user_data w = Some selected ->
  msgs <> [] ->
  run NoAction w
  = (Ok tt, {| ss_messages := Some msgs;
               ss_user_data := Some selected;
               log := log w ++ [EvTitle "🤖 GitLab Advanced Profiler"]
                        ++ transcript_events msgs
                        ++ (if py_truthy selected then view_buttons else []) |}).
Proof.
  intros Hmsgs Hselected Hne. unfold run.
  rewrite (script_no_action_run w msgs selected) by done.
  by destruct msgs.
Qed.

Lemma draws_pure {A} (m : M A) : (forall w, snd (m w) = w) -> draws m.
Proof.
  intros Hpure w. exists (fst (m w)), [].
  rewrite add_events_nil. rewrite <- (Hpure w) at 3. by destruct (m w).
Qed.

Lemma draws_bind {A B} (m : M A) (k : A -> M B) :
  draws m -> (forall a, draws (k a)) -> draws (bind m k).
Proof.
  intros Hm Hk w. unfold bind.
  destruct (Hm w) as ([a | e] & evs1 & ->).
  - destruct (Hk a (add_events w evs1)) as (r & evs2 & ->).
    exists r, (evs1 ++ evs2). by rewrite add_events_app.
  - by exists (Raised e), evs1.
Qed.

Lemma draws_emit ev : draws (emit ev).
Proof. intros w. by exists (Ok tt), [ev]. Qed.

Lemma draws_static P {A} (m : M A) : static P m -> draws m.
Proof. intros (r & evs & _ & Hrun) w. exists r, evs. apply Hrun. Qed.

Lemma draws_fetch_user_projects user_id : draws (fetch_user_projects user_id).
Proof. intros w. rewrite fetch_user_projects_run. by eexists _, _. Qed.

Lemma draws_fetch_gitlab_user username : draws (fetch_gitlab_user username).
Proof.
  intros w. rewrite fetch_gitlab_user_run. simpl.
  destruct (request_failure _); [by eexists _, _ |].
  destruct (reply_body _); by eexists _, _.
Qed.

Lemma draws_display_project_visuals projects :
  draws (display_project_visuals projects).
Proof.
  intros w. destruct (display_project_visuals_shape projects w)
    as (r & evs & k & Hrun & _).
  by exists r, evs.
Qed.

Lemma draws_interaction a : no_submission a = true -> draws (interaction a).
Proof.
  intros Ha. unfold interaction.
  apply draws_bind; [by apply draws_pure |]. intros msgs.
  apply draws_bind.
  { intros w. rewrite show_messages_events. by eexists _, _. }
  intros _. apply draws_bind.
  { destruct a as [| [| c rest] | |]; try done; by apply draws_pure. }
  intros _. apply draws_bind; [by apply draws_pure |]. intros selected.
  destruct (py_truthy selected); [| by apply draws_pure].
  repeat (apply draws_bind; [apply draws_emit | intros _]).
  apply draws_bind.
  { destruct a; try (by apply draws_pure).
    eapply draws_static, static_display_full_profile. }
  intros _.
  repeat (apply draws_bind; [apply draws_emit | intros _]).
  destruct a; try (by apply draws_pure).
  apply draws_bind.
  { apply draws_pure. intros w. destruct selected as [| | | | | | d]; try done.
    simpl. by destruct (dict_get "id" d). }
  intros uid. apply draws_bind; [apply draws_fetch_user_projects |].
  intros projects. apply draws_display_project_visuals.
Qed.

Lemma script_view_session a w :
  no_submission a = true ->
  ss_messages (snd (script a w)) = Some (greeted (messages_of w)) /\
  ss_user_data (snd (script a w)) = Some (default JNull (ss_user_data w)).
Proof.
  intros Ha. unfold script, bind.
  destruct (startup_session w) as (w1 & -> & Hmsgs & Hselected).
  destruct (draws_interaction a Ha w1) as (r & evs & ->). done.
Qed.

Lemma run_view_session a w :
  no_submission a = true ->
  ss_messages (snd (run a w)) = Some (greeted (messages_of w)) /\
  ss_user_data (snd (run a w)) = Some (default JNull (ss_user_data w)).
Proof.
  intros Ha. unfold run.
  destruct (script_view_session a w Ha) as [Hmsgs Hselected].
  destruct (script a w) as [[[] | e] w1]; simpl in *; try done.
  destruct e; try done.
  destruct (script_view_session NoAction w1 eq_refl) as [Hmsgs' Hselected'].
  unfold messages_of in Hmsgs'. rewrite Hmsgs, Hselected in *. simpl in *.
  split; [| done]. rewrite Hmsgs'. by destruct (messages_of w).
Qed.

(** X17.  The two views are read-only: a run started by a button, or by
    nothing, leaves the transcript and the selected user exactly as they
    were, whatever the network answers and also when the view raises. *)
Theorem views_leave_the_session a w msgs selected :
  no_submission a = true ->
  ss_messages w = Some msgs ->
  msgs <> [] ->
  ss_user_data w = Some selected ->
  ss_messages (snd (run a w)) = Some msgs /\
  ss_user_data (snd (run a w)) = Some selected.
Proof.
  intros Ha Hmsgs Hne Hselected.
  destruct (run_view_session a w Ha) as [-> ->].
  unfold messages_of. rewrite Hmsgs, Hselected. by destruct msgs.
Qed.

(** *** The chat handler, case by case *)

Lemma searching_run prompt w msgs :
  ss_messages w = Some msgs ->
  searching prompt w
  = {| ss_messages := Some (msgs ++ [mkMessage user prompt]);
       ss_user_data := Some JNull;
       log := log w ++ [EvSpinner ("Searching for '" +:+ prompt +:+ "'...")] |}.
Proof. intros Hmsgs. unfold searching, bind, add_message. by rewrite Hmsgs. Qed.

Lemma handle_prompt_after_lookup prompt w msgs :
  ss_messages w = Some msgs ->
  handle_prompt prompt w
  = (let* user_data := fetch_gitlab_user prompt in
     (if py_truthy user_data then
        set_user_data user_data ;;
        let* name := py_getitem user_data "name" in
        let* username := py_getitem user_data "username" in
        add_message assistant
          ("Found user **" +:+ format_value name +:+ "** (`"
             +:+ format_value username +:+ "`). What would you like to see?")
      else
        add_message assistant
          ("Sorry, I couldn't find a user with the username '"
             +:+ prompt +:+ "'.")) ;;
     raise RerunException) (searching prompt w).
Proof.
  intros Hmsgs. unfold handle_prompt, searching, bind, add_message.
  by rewrite Hmsgs.
Qed.

Lemma handle_prompt_cases prompt w msgs :
  ss_messages w = Some msgs ->
  exists r evs,
    fetch_gitlab_user prompt (searching prompt w)
      = (r, add_events (searching prompt w) evs) /\
    handle_prompt prompt w
    = let after := fun replies chosen =>
        {| ss_messages := Some (msgs ++ mkMessage user prompt :: replies);
           ss_user_data := Some chosen;
           log := log w
                    ++ EvSpinner ("Searching for '" +:+ prompt +:+ "'...") :: evs |} in
      match r with
      | Raised e => (Raised e, after [] JNull)
      | Ok found =>
          if py_truthy found then
            match found with
            | JObj d =>
                match dict_get "name" d, dict_get "username" d with
                | Some name, Some username =>
                    (Raised RerunException,
                     after [mkMessage assistant
                              ("Found user **" +:+ format_value name +:+ "** (`"
                                 +:+ format_value username
                                 +:+ "`). What would you like to see?")] found)
                | None, _ => (Raised (KeyError (JStr "name")), after [] found)
                | Some _, None => (Raised (KeyError (JStr "username")), after [] found)
                end
            | _ => (Raised TypeError, after [] found)
            end
          else
            (Raised RerunException,
             after [mkMessage assistant
                      ("Sorry, I couldn't find a user with the username '"
                         +:+ prompt +:+ "'.")] JNull)
      end.
Proof.
  intros Hmsgs.
  destruct (draws_fetch_gitlab_user prompt (searching prompt w)) as (r & evs & Hrun).
  exists r, evs. split; [done |].
  rewrite (handle_prompt_after_lookup _ _ _ Hmsgs).
  unfold bind at 1. rewrite Hrun. rewrite (searching_run _ _ _ Hmsgs).
  unfold add_events; simpl.
  destruct r as [found | e]; [| by rewrite <- app_assoc].
  unfold bind at 1.
  destruct (py_truthy found).
  - unfold bind, set_user_data, py_getitem, add_message, raise; simpl.
    destruct found as [| | | | | | d]; simpl; try by rewrite <- app_assoc.
    destruct (dict_get "name" d) as [name |]; simpl; [| by rewrite <- app_assoc].
    destruct (dict_get "username" d) as [username |]; simpl;
      by rewrite <- !app_assoc.
  - unfold add_message, raise; simpl. by rewrite <- !app_assoc.
Qed.

Lemma greeted_nonempty msgs m others : greeted (msgs ++ m :: others) = msgs ++ m :: others.
Proof. by destruct msgs. Qed.

Lemma run_submit prompt w :
  prompt <> EmptyString ->
  exists w1,
    ss_messages w1 = Some (greeted (messages_of w)) /\
    chat_entry w = w1 /\
    forall e w2,
      handle_prompt prompt w1 = (Raised e, w2) ->
      run (Submit prompt) w
      = match e with
        | RerunException => script NoAction w2
        | _ => (Raised e, w2)
        end.
Proof.
  intros Hprompt. destruct prompt as [| c rest]; [congruence |].
  destruct (chat_entry_session w) as (w1 & evs & Hstart & Hmsgs & Hshow & Hentry).
  exists (add_events w1 evs). split_and!; [exact Hmsgs | exact Hentry |].
  intros e w2 Hhandler.
  unfold run, script, interaction, bind, get_messages.
  rewrite Hstart, Hmsgs, Hshow, Hhandler.
  by destruct e.
Qed.

(** X18.  When the lookup of a submitted username yields a record with
    [name] and [username], the run ends normally with that record selected
    and exactly two messages added to the transcript: the username as the
    user typed it, then the confirmation naming the user. *)
Theorem found_user_is_selected prompt w d name username :
  prompt <> EmptyString ->
  fst (fetch_gitlab_user prompt (searching prompt (chat_entry w))) = Ok (JObj d) ->
  d <> [] ->
  dict_get "name" d = Some name ->
  dict_get "username" d = Some username ->
  fst (run (Submit prompt) w) = Ok tt /\
  ss_user_data (snd (run (Submit prompt) w)) = Some (JObj d) /\
  messages_of (snd (run (Submit prompt) w))
  = greeted (messages_of w)
      ++ [mkMessage user prompt;
          mkMessage assistant
            ("Found user **" +:+ format_value name +:+ "** (`"
               +:+ format_value username +:+ "`). What would you like to see?")].
Proof.
  intros Hprompt Hlookup Hne Hname Husername.
  destruct (run_submit prompt w Hprompt) as (w1 & Hmsgs & Hentry & Hrun).
  rewrite Hentry in Hlookup.
  destruct (handle_prompt_cases prompt w1 _ Hmsgs) as (r & evs & Hfetch & Hcases).
  rewrite Hfetch in Hlookup. simpl in Hlookup. subst r.
  replace (py_truthy (JObj d)) with true in Hcases by (by destruct d).
  simpl in Hcases. rewrite Hname, Husername in Hcases.
  rewrite (Hrun _ _ Hcases).
  erewrite script_no_action_run by reflexivity.
  by rewrite greeted_nonempty.
Qed.

(** X19.  A found record without [name] is selected all the same: the run
    ends with [KeyError] after the selection was stored, with the user's
    message in the transcript but no reply, and without the rerun. *)
Theorem found_user_without_name prompt w d :
  prompt <> EmptyString ->
  fst (fetch_gitlab_user prompt (searching prompt (chat_entry w))) = Ok (JObj d) ->
  d <> [] ->
  dict_get "name" d = None ->
  fst (run (Submit prompt) w) = Raised (KeyError (JStr "name")) /\
  ss_user_data (snd (run (Submit prompt) w)) = Some (JObj d) /\
  messages_of (snd (run (Submit prompt) w))
  = greeted (messages_of w) ++ [mkMessage user prompt].
Proof.
  intros Hprompt Hlookup Hne Hname.
  destruct (run_submit prompt w Hprompt) as (w1 & Hmsgs & Hentry & Hrun).
  rewrite Hentry in Hlookup.
  destruct (handle_prompt_cases prompt w1 _ Hmsgs) as (r & evs & Hfetch & Hcases).
  rewrite Hfetch in Hlookup. simpl in Hlookup. subst r.
  replace (py_truthy (JObj d)) with true in Hcases by (by destruct d).
  simpl in Hcases. rewrite Hname in Hcases.
  by rewrite (Hrun _ _ Hcases).
Qed.

Lemma handle_prompt_transcript prompt w msgs :
  ss_messages w = Some msgs ->
  exists e replies,
    fst (handle_prompt prompt w) = Raised e /\
    ss_messages (snd (handle_prompt prompt w))
      = Some (msgs ++ mkMessage user prompt :: replies) /\
    (length replies <= 1)%nat /\
    Forall (fun m => msg_role m = assistant) replies.
Proof.
  intros Hmsgs.
  destruct (handle_prompt_cases prompt w msgs Hmsgs) as (r & evs & _ & ->).
  simpl.
  assert (Hnone : forall e (w' : world), exists e' replies,
             fst (@Raised unit e, w') = Raised e' /\
             Some (msgs ++ [mkMessage user prompt])
               = Some (msgs ++ mkMessage user prompt :: replies) /\
             (length replies <= 1)%nat /\
             Forall (fun m => msg_role m = assistant) replies).
  { intros e w'. exists e, []. split_and!; [done | done | simpl; lia | constructor]. }
  assert (Hone : forall e (w' : world) content, exists e' replies,
             fst (@Raised unit e, w') = Raised e' /\
             Some (msgs ++ [mkMessage user prompt; mkMessage assistant content])
               = Some (msgs ++ mkMessage user prompt :: replies) /\
             (length replies <= 1)%nat /\
             Forall (fun m => msg_role m = assistant) replies).
  { intros e w' content. exists e, [mkMessage assistant content].
    split_and!; [done | done | simpl; lia | by repeat constructor]. }
  destruct r as [found | e]; [| apply Hnone].
  destruct (py_truthy found); [| apply Hone].
  destruct found as [| | | | | | d]; try apply Hnone.
  destruct (dict_get "name" d); [| apply Hnone].
  destruct (dict_get "username" d); [apply Hone | apply Hnone].
Qed.

(** X20.  Whatever the network answers, a submitted username adds to the
    transcript the user's message and after it at most one message, which
    is the assistant's; this holds also for a run that ends by an
    exception. *)
Theorem submission_adds_one_exchange prompt w :
  prompt <> EmptyString ->
  exists replies,
    messages_of (snd (run (Submit prompt) w))
      = greeted (messages_of w) ++ mkMessage user prompt :: replies /\
    (length replies <= 1)%nat /\
    Forall (fun m => msg_role m = assistant) replies.
Proof.
  intros Hprompt.
  destruct (run_submit prompt w Hprompt) as (w1 & Hmsgs & _ & Hrun).
  destruct (handle_prompt_transcript prompt w1 _ Hmsgs)
    as (e & replies & Hraised & Hafter & Hlength & Hroles).
  exists replies. split_and!; try done.
  destruct (handle_prompt prompt w1) as [r w2] eqn:Hhandler.
  simpl in Hraised, Hafter. subst r.
  rewrite (Hrun _ _ eq_refl).
  assert (Hkeep : messages_of w2
                  = greeted (messages_of w) ++ mkMessage user prompt :: replies)
    by (unfold messages_of; by rewrite Hafter).
  destruct e; try done.
  destruct (script_view_session NoAction w2 eq_refl) as [Hmsgs2 _].
  unfold messages_of at 1. rewrite Hmsgs2, Hkeep. apply greeted_nonempty.
Qed.

(** X21.  In the project view a failed listing cannot be told from an
    empty one: when the listing fails or comes back empty, a click on the
    second button draws the two buttons, sends the one request and shows
    the notice that no projects are visible, with no chart and no further
    request, and leaves the session as it was. *)
Theorem failed_listing_shows_no_projects w msgs d uid :
  ss_messages w = Some msgs ->
  ss_user_data w = Some (JObj d) ->
  d <> [] ->
  dict_get "id" d = Some uid ->
  (forall h, no_projects (net h (projects_url uid) headers) = true) ->
  exists reply,
    run ClickVisuals w
    = (Ok tt,
       {| ss_messages := Some (greeted msgs);
          ss_user_data := Some (JObj d);
          log := log w ++ [EvTitle "🤖 GitLab Advanced Profiler"]
                   ++ transcript_events (greeted msgs)
                   ++ view_buttons
                   ++ [EvGet (projects_url uid) headers reply;
                       EvSubheader "Project Visualizations";
                       EvWarning "No projects found that are visible to you."] |}).
Proof.
  intros Hmsgs Hselected Hne Hid Hdown.
  assert (Hfalsy : forall r, no_projects r = true ->
            py_truthy (default (JArr []) (reply_body r)) = false).
  { intros r. unfold no_projects. destruct (reply_body r); simpl; [| done].
    by intros ->%negb_true_iff. }
  unfold run, script, bind. rewrite (startup_run w msgs (JObj d)) by done.
  unfold interaction, bind, get_messages, get_user_data. simpl.
  rewrite show_messages_events. simpl.
  replace (match d with [] => false | _ :: _ => true end) with true
    by (by destruct d).
  unfold emit, add_events; simpl. rewrite Hid. simpl.
  rewrite fetch_user_projects_run. simpl.
  unfold display_project_visuals, bind, emit.
  rewrite (Hfalsy _ (Hdown _)). simpl.
  eexists. unfold add_events; simpl.
  by rewrite <- !app_assoc.
Qed.

End App.

(** ** The properties on the sample data *)

Lemma fetch_gitlab_user_first_match_witness :
  fst (fetch_gitlab_user sample_url sample_token sample_net "alice" fresh)
  = Ok (JObj alice).
Proof.
  apply (proj1 (fetch_gitlab_user_first_match sample_url sample_token sample_net
                  "alice" fresh 200 [JObj alice; JObj carol] eq_refl eq_refl)
           (JObj alice) [JObj carol] eq_refl).
Defined.

Lemma fail_soft_on_failure_witness :
  fst (fetch_user_projects sample_url sample_token dead_net sample_repr (JInt 42) fresh)
    = Ok (JArr []) /\
  fst (get_project_languages sample_url sample_token sample_net sample_repr (JInt 9) fresh)
    = Ok (JObj []).
Proof.
  split.
  - rewrite (proj1 (fail_soft_on_failure sample_url sample_token dead_net sample_repr
                      (JInt 42) fresh) eq_refl).
    reflexivity.
  - rewrite (proj2 (fail_soft_on_failure sample_url sample_token sample_net
                      sample_repr (JInt 9) fresh) eq_refl).
    reflexivity.
Defined.

Lemma non_success_status_counterexample :
  is_success 300 = false /\
  fst (fetch_user_projects sample_url sample_token redirect_net sample_repr (JInt 42)
         fresh)
    = Ok (JArr [JObj [("id", JInt 1)]]) /\
  fst (fetch_user_projects sample_url sample_token redirect_net sample_repr (JInt 42)
         fresh)
    <> Ok (JArr []) /\
  fst (get_project_languages sample_url sample_token redirect_net sample_repr (JInt 7)
         fresh)
    <> Ok (JObj []).
Proof. split_and!; [reflexivity | reflexivity | discriminate | discriminate]. Qed.

Lemma per_project_charts_counterexample :
  fetched_urls
    (log (snd (display_project_visuals sample_url sample_token sample_net sample_repr
                 (JArr [JObj (sample_project 2 None)]) fresh)))
  = ["https://gitlab.example.com/api/v4/projects/2/languages"] /\
  pie_charts
    (log (snd (display_project_visuals sample_url sample_token sample_net sample_repr
                 (JArr [JObj (sample_project 2 None)]) fresh)))
  = [] /\
  length
    (pie_charts
       (log (snd (display_project_visuals sample_url sample_token sample_net sample_repr
                    (JArr [JObj (sample_project 2 None)]) fresh))))
  <> Nat.min (length [sample_project 2 None]) 9.
Proof. vm_compute. split_and!; [reflexivity | reflexivity | discriminate]. Qed.

Lemma capped_language_cells_witness :
  exists chart cells,
    fst (display_project_visuals sample_url sample_token sample_net sample_repr
           (JArr (JObj <$> fifteen_projects)) fresh) = Ok tt /\
    Forall2 (cell_trace sample_url sample_token sample_repr)
      (take 9 fifteen_projects) cells /\
    length cells = 9%nat /\
    length (df_index chart) = 15%nat.
Proof.
  destruct (capped_language_cells sample_url sample_token sample_net sample_repr
              fifteen_projects fresh)
    as (chart & cells & Hrun & Htraces & Hcells & _ & _ & Hrows).
  - discriminate.
  - repeat (apply Forall_cons; split; [reflexivity |]). constructor.
  - repeat (apply Forall_cons; split;
            [intros h pid Hid; vm_compute in Hid; injection Hid as <-; reflexivity |]).
    constructor.
  - exists chart, cells. rewrite Hrun. split_and!; done.
Defined.



Lemma three_series_counterexample :
  exists chart,
    bar_charts
      (log (snd (display_project_visuals sample_url sample_token sample_net sample_repr
                   (JArr [JObj (sample_project 1 None)]) fresh)))
    = [chart] /\
    series_names chart = ["star_count"; "forks_count"] /\
    series_names chart <> ["star_count"; "forks_count"; "commit_count"].
Proof. eexists. vm_compute. split_and!; [reflexivity | reflexivity | discriminate]. Qed.

Lemma bar_chart_series_witness :
  exists chart,
    series_names chart = ["star_count"; "forks_count"; "commit_count"] /\
    df_index chart = [Some (JStr "p1"); Some (JStr "p2"); Some (JStr "p3")] /\
    column_get "commit_count" (df_columns chart)
    = Some [Some (JInt 12); Some (JInt 0); Some (JInt 0)].
Proof.
  destruct (bar_chart_series sample_url sample_token sample_net sample_repr
              mixed_projects fresh)
    as (chart & evs & _ & _ & Hindex & _ & _ & Hthree & _).
  - discriminate.
  - repeat (apply Forall_cons; split; [reflexivity |]). constructor.
  - exists chart. destruct (Hthree eq_refl) as [Hnames Hcommits].
    split_and!; [exact Hnames | exact Hindex | exact Hcommits].
Defined.

Lemma not_found_clears_selection_witness :
  ss_user_data alice_selected = Some (JObj alice) /\
  (exists w',
     handle_prompt sample_url sample_token sample_net sample_repr "nobody" alice_selected
     = (Raised RerunException, w') /\
     ss_user_data w' = Some JNull) /\
  ss_user_data
    (snd (run sample_url sample_token sample_net sample_repr (Submit "nobody")
            alice_selected))
  = Some JNull.
Proof.
  split; [reflexivity |]. split.
  - eapply (proj1 (not_found_clears_selection sample_url sample_token sample_net
                     sample_repr "nobody" alice_selected)); reflexivity.
  - apply (proj2 (not_found_clears_selection sample_url sample_token sample_net
                    sample_repr "nobody" alice_selected)); [discriminate | reflexivity].
Defined.

Lemma transcript_starts_with_greeting_witness :
  reachable sample_url sample_token sample_net sample_repr
    (snd (run sample_url sample_token sample_net sample_repr (Submit "alice") fresh)) /\
  forall m others,
    messages_of
      (snd (run sample_url sample_token sample_net sample_repr (Submit "alice") fresh))
    = m :: others ->
    m = greeting /\ msg_role m = assistant.
Proof.
  split.
  - apply reachable_run, reachable_fresh.
  - apply (transcript_starts_with_greeting sample_url sample_token sample_net sample_repr).
    apply reachable_run, reachable_fresh.
Defined.

(** The scenario of the specification: alice joined on 2020-01-01, and
    fifteen projects give nine requests, in the order of the list. *)
Example scenario_alice_joined :
  joined_lines (log (snd (display_full_profile sample_repr (JObj alice) fresh)))
  = ["2020-01-01"].
Proof. reflexivity. Qed.

Example scenario_fifteen_projects :
  fetched_urls
    (log (snd (display_project_visuals sample_url sample_token sample_net sample_repr
                 (JArr (JObj <$> fifteen_projects)) fresh)))
  = map (fun i => "https://gitlab.example.com/api/v4/projects/" +:+ pretty i
                    +:+ "/languages")
      [1; 2; 3; 4; 5; 6; 7; 8; 9].
Proof. vm_compute. reflexivity. Qed.

(** A redirect status is not an error status for [raise_for_status]: the
    body of such a reply is returned as it is. *)
Example redirect_body_is_returned :
  fst (fetch_user_projects sample_url sample_token
         (fun _ _ _ => GetResponse (mkResponse 300 (Some (JArr [JInt 1]))))
         sample_repr (JInt 42) fresh)
  = Ok (JArr [JInt 1]).
Proof. reflexivity. Qed.

(** ** The further properties on the sample data *)

Lemma fetch_gitlab_user_failure_witness :
  fetch_gitlab_user sample_url sample_token dead_net "alice" fresh
  = (Ok JNull,
     add_events fresh
       [EvGet "https://gitlab.example.com/api/v4/users?username=alice" "Bearer tok"
          (GetRaised ConnectionError);
        EvError "API Request Failed: " ConnectionError]).
Proof.
  apply (fetch_gitlab_user_failure sample_url sample_token dead_net "alice" fresh
           ConnectionError).
  reflexivity.
Defined.

Lemma fetch_gitlab_user_empty_is_silent_witness :
  exists evs,
    fetch_gitlab_user sample_url sample_token sample_net "nobody" fresh
    = (Ok JNull, add_events fresh evs) /\
    fetched_urls evs = ["https://gitlab.example.com/api/v4/users?username=nobody"] /\
    errors evs = [].
Proof.
  apply (fetch_gitlab_user_empty_is_silent sample_url sample_token sample_net
           "nobody" fresh (JArr [])); reflexivity.
Defined.

Lemma fetch_gitlab_user_wrong_shape_raises_witness :
  fst (fetch_gitlab_user sample_url sample_token object_net "alice" fresh)
  = Raised (KeyError (JInt 0)).
Proof.
  destruct (fetch_gitlab_user_wrong_shape_raises sample_url sample_token object_net
              "alice" fresh (JObj [("message", JStr "ok")]) eq_refl eq_refl)
    as (evs & _ & _ & Hobject & _).
  apply Hobject. reflexivity.
Defined.

Lemma helpers_hand_back_the_body_witness :
  fst (get_project_languages sample_url sample_token sample_net sample_repr (JInt 2) fresh)
    = Ok (JObj []) /\
  fst (fetch_user_projects sample_url sample_token array_net sample_repr (JInt 42) fresh)
    = Ok (JArr [JStr "Python"]) /\
  fst (fetch_user_projects sample_url sample_token sample_net sample_repr (JInt 42) fresh)
    = Ok (JArr []).
Proof.
  split_and!.
  - apply (proj1 (proj2 (helpers_hand_back_the_body sample_url sample_token sample_net
                           sample_repr (JInt 2) fresh))).
    reflexivity.
  - apply (proj1 (helpers_hand_back_the_body sample_url sample_token array_net
                    sample_repr (JInt 42) fresh)).
    reflexivity.
  - apply (proj1 (proj2 (proj2 (helpers_hand_back_the_body sample_url sample_token
                                  sample_net sample_repr (JInt 42) fresh)))
             (HTTPError 404)).
    reflexivity.
Defined.


Lemma language_grid_is_row_major_witness :
  exists evs,
    snd (display_project_visuals sample_url sample_token sample_net sample_repr
           (JArr (JObj <$> fifteen_projects)) fresh) = add_events fresh evs /\
    columns_entered evs = [0; 1; 2; 0; 1; 2; 0; 1; 2]%nat.
Proof.
  apply (language_grid_is_row_major sample_url sample_token sample_net sample_repr
           fifteen_projects fresh).
  vm_compute. reflexivity.
Defined.

Lemma missing_column_raises_witness :
  display_project_visuals sample_url sample_token sample_net sample_repr
    (JArr (JObj <$> bare_projects)) fresh
  = (Raised (KeyError (JArr [JStr "star_count"; JStr "forks_count"])),
     add_events fresh [EvSubheader "Project Visualizations";
                       EvMarkdown "#### Project Popularity & Activity"]).
Proof.
  apply (missing_column_raises sample_url sample_token sample_net sample_repr
           bare_projects fresh ["star_count"; "forks_count"]).
  - discriminate.
  - reflexivity.
  - discriminate.
Defined.

Lemma partial_records_give_nan_witness :
  exists chart stars,
    length (df_index chart) = 2%nat /\
    column_get "star_count" (df_columns chart) = Some stars /\
    stars !! 1%nat = Some None.
Proof.
  destruct (partial_records_give_nan sample_url sample_token sample_net sample_repr
              sparse_projects fresh eq_refl)
    as (chart & evs & _ & _ & Hrows & Hcells).
  destruct (Hcells 1%nat [("id", JInt 2); ("name", JStr "p2")] eq_refl)
    as (_ & (stars & Hcolumn & Hcell) & _).
  exists chart, stars. split_and!; [exact Hrows | exact Hcolumn | exact Hcell].
Defined.

Lemma loop_stops_at_incomplete_record_witness :
  language_cells sample_url sample_token sample_net sample_repr
    ([("name", JStr "p0")] :: fifteen_projects) 0 fresh
  = (Raised (KeyError (JStr "id")),
     add_events fresh [EvEnterColumn 0; EvSpinner "Getting languages for p0..."]).
Proof.
  apply (proj2 (loop_stops_at_incomplete_record sample_url sample_token sample_net
                  sample_repr [("name", JStr "p0")] fifteen_projects 0%nat fresh
                  ltac:(lia))
           (JStr "p0")); reflexivity.
Defined.

Lemma loop_stops_at_malformed_breakdown_witness :
  exists reply,
    language_cells sample_url sample_token array_net sample_repr
      (sample_project 1 None :: fifteen_projects) 0 fresh
    = (Raised AttributeError,
       add_events fresh
         [EvEnterColumn 0; EvSpinner "Getting languages for p1...";
          EvGet "https://gitlab.example.com/api/v4/projects/1/languages" "Bearer tok"
            reply]).
Proof.
  apply (loop_stops_at_malformed_breakdown sample_url sample_token array_net sample_repr
           (sample_project 1 None) fifteen_projects 0%nat fresh
           (JStr "p1") (JInt 1) (JArr [JStr "Python"])).
  - lia.
  - reflexivity.
  - reflexivity.
  - reflexivity.
  - reflexivity.
  - reflexivity.
Defined.

Lemma idle_run_redraws_the_page_witness :
  fst (run sample_url sample_token sample_net sample_repr NoAction alice_selected) = Ok tt /\
  ss_messages (snd (run sample_url sample_token sample_net sample_repr NoAction
                      alice_selected))
    = ss_messages alice_selected /\
  buttons (log (snd (run sample_url sample_token sample_net sample_repr NoAction
                       alice_selected)))
    = ["👤 View Full Profile"; "📊 View Project Visuals"].
Proof.
  rewrite (idle_run_redraws_the_page sample_url sample_token sample_net sample_repr
             alice_selected _ (JObj alice) eq_refl eq_refl ltac:(discriminate)).
  split_and!; reflexivity.
Defined.

Lemma views_leave_the_session_witness :
  ss_messages (snd (run sample_url sample_token sample_net sample_repr ClickProfile
                      alice_selected))
    = ss_messages alice_selected /\
  ss_user_data (snd (run sample_url sample_token sample_net sample_repr ClickProfile
                       alice_selected))
    = Some (JObj alice).
Proof.
  apply (views_leave_the_session sample_url sample_token sample_net sample_repr
           ClickProfile alice_selected).
  - reflexivity.
  - reflexivity.
  - discriminate.
  - reflexivity.
Defined.

Lemma found_user_is_selected_witness :
  fst (run sample_url sample_token sample_net sample_repr (Submit "alice") fresh) = Ok tt /\
  ss_user_data (snd (run sample_url sample_token sample_net sample_repr (Submit "alice")
                       fresh))
    = Some (JObj alice) /\
  messages_of (snd (run sample_url sample_token sample_net sample_repr (Submit "alice")
                      fresh))
    = [greeting; mkMessage user "alice";
       mkMessage assistant
         "Found user **Alice A** (`alice`). What would you like to see?"].
Proof.
  apply (found_user_is_selected sample_url sample_token sample_net sample_repr
           "alice" fresh alice (JStr "Alice A") (JStr "alice")).
  - discriminate.
  - reflexivity.
  - discriminate.
  - reflexivity.
  - reflexivity.
Defined.

Lemma found_user_without_name_witness :
  fst (run sample_url sample_token nameless_net sample_repr (Submit "eve") fresh)
    = Raised (KeyError (JStr "name")) /\
  ss_user_data (snd (run sample_url sample_token nameless_net sample_repr (Submit "eve")
                       fresh))
    = Some (JObj [("id", JInt 5); ("username", JStr "eve")]) /\
  messages_of (snd (run sample_url sample_token nameless_net sample_repr (Submit "eve")
                      fresh))
    = [greeting; mkMessage user "eve"].
Proof.
  apply (found_user_without_name sample_url sample_token nameless_net sample_repr
           "eve" fresh [("id", JInt 5); ("username", JStr "eve")]).
  - discriminate.
  - reflexivity.
  - discriminate.
  - reflexivity.
Defined.

Lemma submission_adds_one_exchange_witness :
  exists replies,
    messages_of (snd (run sample_url sample_token dead_net sample_repr (Submit "alice")
                        fresh))
      = [greeting; mkMessage user "alice"] ++ replies /\
    (length replies <= 1)%nat /\
    Forall (fun m => msg_role m = assistant) replies.
Proof.
  apply (submission_adds_one_exchange sample_url sample_token dead_net sample_repr
           "alice" fresh).
  discriminate.
Defined.

Lemma failed_listing_shows_no_projects_witness :
  exists reply evs,
    run sample_url sample_token dead_net sample_repr ClickVisuals alice_selected
    = (Ok tt, add_events alice_selected evs) /\
    fetched_urls evs
      = ["https://gitlab.example.com/api/v4/users/42/projects?statistics=true&per_page=100"] /\
    warnings evs = ["No projects found that are visible to you."] /\
    last evs = Some (EvWarning "No projects found that are visible to you.") /\
    In (EvGet "https://gitlab.example.com/api/v4/users/42/projects?statistics=true&per_page=100"
          "Bearer tok" reply) evs.
Proof.
  destruct (failed_listing_shows_no_projects sample_url sample_token dead_net sample_repr
              alice_selected _ alice (JInt 42) eq_refl eq_refl ltac:(discriminate)
              eq_refl (fun h => eq_refl))
    as (reply & Hrun).
  exists reply. eexists. rewrite Hrun. split; [reflexivity |].
  split_and!; try reflexivity. simpl. auto 20.
Defined.
